(** * OutlineView: the view-model transaction engine

    A shallow embedding of [packages/outline/src/OutlineView.js].

    JavaScript objects have identity and are mutated in place, so every
    object the module touches lives in a store and is named by a
    reference: view models, the plain objects used as node maps, the
    [Set]s of dirty keys and the editors.  The two module-level [let]
    variables are fields of the same state.  A computation takes the
    state and either returns a value or throws, and in both cases hands
    back the state it reached: what a callback wrote before it threw
    stays written. *)

From stdpp Require Import gmap strings list fin_maps.

Set Default Proof Using "Type".

(** ** Values *)

(** [NodeKey] is a string; a [Node] is the identity of a node object.
    References into the four stores are natural numbers. *)
Abbreviation NodeKey := string (only parsing).
Abbreviation Node := nat (only parsing).
Abbreviation VMRef := nat (only parsing).
Abbreviation MapRef := nat (only parsing).
Abbreviation SetRef := nat (only parsing).
Abbreviation EditorRef := nat (only parsing).
Abbreviation FnId := nat (only parsing).

(** [type NodeMapType = {[key: NodeKey]: Node}] *)
Abbreviation NodeMapType := (gmap string nat) (only parsing).

(** Modelled from the spec: the [Selection] class of OutlineSelection is
    not part of this file.  A selection value exposes the [isDirty]
    observation read by the acceptance check; its range is opaque. *)
Record Selection := mkSelection {
  isDirty : bool;
  range : nat;
}.

(** [class ViewModel].  [nodeMap], [dirtyNodes] and [dirtySubTrees] hold
    references to a plain object and to two [Set] objects. *)
Record ViewModel := mkViewModel {
  root : Node;
  nodeMap : MapRef;
  selection : option Selection;
  dirtyNodes : SetRef;
  dirtySubTrees : SetRef;
  isHistoric : bool;
}.

(** The part of [OutlineEditor] this module reads and writes.  The two
    registries are [Set]s of functions: a function is named by a
    [FnId], and a [Set] is the list of its members in insertion order. *)
Record Editor := mkEditor {
  _viewModel : VMRef;
  _textTransforms : list FnId;
  _updateListeners : list FnId;
}.

(** What a [throw] carries. *)
Inductive Thrown :=
| JsError (message : string)   (* [new Error(message)] *)
| JsTypeError                  (* member access through a reference that names no object *)
| JsOther (tag : nat).         (* any other value thrown by a callback *)

Definition NoActiveScope : Thrown :=
  JsError ("Unable to find an active view model. " ++
           "Editor helpers or node methods can only be used " ++
           "synchronously during the callback of editor.draft().").

Definition ReadOnlyViolation : Thrown :=
  JsError "Cannot use method in read-only mode.".

Section Model.

(** Everything outside this module that a callback can read or write:
    the node objects with their parent links, the DOM, closures. *)
Context {Ext : Type}.

(** ** The state *)

Record World := mkWorld {
  activeViewModel : option VMRef;        (* [let activeViewModel = null] *)
  activeReadyOnlyMode : bool;            (* [let activeReadyOnlyMode = false] *)
  viewModels : gmap nat ViewModel;
  nodeMaps : gmap nat (gmap string nat);
  keySets : gmap nat (list string);
  editors : gmap nat Editor;
  ext : Ext;
}.

Definition set_activeViewModel (a : option VMRef) (w : World) : World :=
  mkWorld a (activeReadyOnlyMode w) (viewModels w) (nodeMaps w)
          (keySets w) (editors w) (ext w).

Definition set_activeReadyOnlyMode (b : bool) (w : World) : World :=
  mkWorld (activeViewModel w) b (viewModels w) (nodeMaps w)
          (keySets w) (editors w) (ext w).

Definition set_viewModels (h : gmap nat ViewModel) (w : World) : World :=
  mkWorld (activeViewModel w) (activeReadyOnlyMode w) h (nodeMaps w)
          (keySets w) (editors w) (ext w).

Definition set_nodeMaps (h : gmap nat (gmap string nat)) (w : World) : World :=
  mkWorld (activeViewModel w) (activeReadyOnlyMode w) (viewModels w) h
          (keySets w) (editors w) (ext w).

Definition set_keySets (h : gmap nat (list string)) (w : World) : World :=
  mkWorld (activeViewModel w) (activeReadyOnlyMode w) (viewModels w)
          (nodeMaps w) h (editors w) (ext w).

Definition set_editors (h : gmap nat Editor) (w : World) : World :=
  mkWorld (activeViewModel w) (activeReadyOnlyMode w) (viewModels w)
          (nodeMaps w) (keySets w) h (ext w).

Definition set_ext (x : Ext) (w : World) : World :=
  mkWorld (activeViewModel w) (activeReadyOnlyMode w) (viewModels w)
          (nodeMaps w) (keySets w) (editors w) x.

(** ** Computations *)

Inductive Outcome (A : Type) :=
| Returned (a : A) (w : World)
| Threw (e : Thrown) (w : World).
Arguments Returned {A} a w.
Arguments Threw {A} e w.

Definition M (A : Type) : Type := World -> Outcome A.

Definition world_of {A} (o : Outcome A) : World :=
  match o with Returned _ w => w | Threw _ w => w end.

#[global] Instance M_ret : MRet M := fun A a w => Returned a w.

#[global] Instance M_bind : MBind M := fun A B k c w =>
  match c w with
  | Returned a w' => k a w'
  | Threw e w' => Threw e w'
  end.

Definition throw {A} (e : Thrown) : M A := fun w => Threw e w.
Definition gets {A} (f : World -> A) : M A := fun w => Returned (f w) w.
Definition modify (f : World -> World) : M unit := fun w => Returned tt (f w).

(** Member access through a reference.  A reference of a running
    program always names an object; a reference that names none is
    answered the way JavaScript answers [undefined.field]. *)
Definition deref {A} (heap : World -> gmap nat A) (r : nat) : M A := fun w =>
  match heap w !! r with
  | Some o => Returned o w
  | None => Threw JsTypeError w
  end.

Definition derefViewModel : VMRef -> M ViewModel := deref viewModels.
Definition derefNodeMap : MapRef -> M (gmap string nat) := deref nodeMaps.
Definition derefKeySet : SetRef -> M (list string) := deref keySets.
Definition derefEditor : EditorRef -> M Editor := deref editors.

(** [new Set()], [{...}] and [new ViewModel(...)]: a fresh reference. *)
Definition newKeySet (s : list string) : M SetRef := fun w =>
  let r := fresh (dom (keySets w)) in
  Returned r (set_keySets (<[r := s]> (keySets w)) w).

Definition newNodeMap (m : gmap string nat) : M MapRef := fun w =>
  let r := fresh (dom (nodeMaps w)) in
  Returned r (set_nodeMaps (<[r := m]> (nodeMaps w)) w).

Definition newViewModelObject (v : ViewModel) : M VMRef := fun w =>
  let r := fresh (dom (viewModels w)) in
  Returned r (set_viewModels (<[r := v]> (viewModels w)) w).

(** Field assignments. *)
Definition with_nodeMap (m : MapRef) (v : ViewModel) : ViewModel :=
  mkViewModel (root v) m (selection v) (dirtyNodes v) (dirtySubTrees v)
              (isHistoric v).

Definition with_selection (s : option Selection) (v : ViewModel) : ViewModel :=
  mkViewModel (root v) (nodeMap v) s (dirtyNodes v) (dirtySubTrees v)
              (isHistoric v).

Definition with_viewModel (r : VMRef) (e : Editor) : Editor :=
  mkEditor r (_textTransforms e) (_updateListeners e).

Definition assignViewModel (r : VMRef) (f : ViewModel -> ViewModel) : M unit :=
  v ← derefViewModel r;
  modify (fun w => set_viewModels (<[r := f v]> (viewModels w)) w).

Definition assignEditor (r : EditorRef) (f : Editor -> Editor) : M unit :=
  e ← derefEditor r;
  modify (fun w => set_editors (<[r := f e]> (editors w)) w).

(** [for (let i = 0; i < n; i++) body(i)] *)
Fixpoint for_from (count i : nat) (body : nat -> M unit) : M unit :=
  match count with
  | 0 => mret tt
  | S count' => body i ;; for_from count' (S i) body
  end.

Definition for_loop (n : nat) (body : nat -> M unit) : M unit :=
  for_from n 0 body.

(** The same loop around a local variable that the body updates. *)
Fixpoint for_from_with {L} (count i : nat) (body : nat -> L -> M L) (x : L) : M L :=
  match count with
  | 0 => mret x
  | S count' => x' ← body i x; for_from_with count' (S i) body x'
  end.

Definition for_loop_with {L} (n : nat) (body : nat -> L -> M L) (x : L) : M L :=
  for_from_with n 0 body x.

(** ** The view contract handed to callbacks *)

Record ViewType := mkView {
  getRoot : M Node;
  getNodeByKey : NodeKey -> M (option Node);
  getSelection : M (option Selection);
  setSelection : Selection -> M unit;
}.

(** ** Collaborators

    Functions this module imports or is handed.  Their bodies are not
    part of the file, so they are parameters of the development. *)
Class Collaborators := {
  (** [node.isAttached()]: whether the node object is reachable from
      the root.  It may consult any part of the state. *)
  isAttached : Node -> World -> bool;
  (** [node instanceof TextNode]: fixed when the object is built. *)
  instanceofTextNode : Node -> bool;
  (** [createSelection(viewModel, editor)] of OutlineSelection: an
      observation of the state giving a selection value or [null]. *)
  createSelection : VMRef -> EditorRef -> World -> option Selection;
  (** [reconcileViewModel(viewModel, editor)] of OutlineReconciler. *)
  reconcileViewModel : VMRef -> EditorRef -> M unit;
  (** [getNodeByKey] of OutlineNode and [getSelection] of
      OutlineSelection, re-exported through [view]. *)
  import_getNodeByKey : NodeKey -> M (option Node);
  import_getSelection : M (option Selection);
  (** The body of a registered text transform, [(node, view) => ...]. *)
  textTransform : FnId -> Node -> ViewType -> M unit;
  (** The body of a registered update listener, [(viewModel) => ...]. *)
  updateListener : FnId -> VMRef -> M unit;
}.

Context {host : Collaborators}.

(** Modelled from the spec: [invariant] of OutlineUtils is not part of
    this file.  It throws an error carrying [message] when [cond] is
    false and does nothing otherwise. *)
Definition invariant (cond : bool) (message : string) : M unit :=
  if cond then mret tt else throw (JsError message).

(** Modelled from the spec: [editor.getCurrentViewModel()] of
    OutlineEditor is not part of this file.  The editor holds a single
    current-snapshot slot, the [_viewModel] field written by
    [updateViewModel]; the getter reads it. *)
Definition getCurrentViewModel (editor : EditorRef) : M VMRef :=
  e ← derefEditor editor;
  mret (_viewModel e).

(** [nodeMap[nodeKey]] and [delete nodeMap[nodeKey]] on a plain object. *)
Definition getProperty (nodeMap : MapRef) (nodeKey : NodeKey) : M (option Node) :=
  m ← derefNodeMap nodeMap;
  mret (m !! nodeKey).

Definition deleteProperty (nodeMap : MapRef) (nodeKey : NodeKey) : M unit :=
  m ← derefNodeMap nodeMap;
  modify (fun w => set_nodeMaps (<[nodeMap := delete nodeKey m]> (nodeMaps w)) w).

(** ** The module *)

Definition shouldErrorOnReadOnly : M unit :=
  readOnly ← gets activeReadyOnlyMode;
  invariant (negb readOnly) "Cannot use method in read-only mode.".

Definition getActiveViewModel : M VMRef :=
  active ← gets activeViewModel;
  match active with
  | None => throw NoActiveScope
  | Some viewModel => mret viewModel
  end.

Definition view : ViewType := {|
  getRoot :=
    viewModel ← getActiveViewModel;
    v ← derefViewModel viewModel;
    mret (root v);
  getNodeByKey := import_getNodeByKey;
  getSelection := import_getSelection;
  setSelection := fun sel =>
    viewModel ← getActiveViewModel;
    assignViewModel viewModel (with_selection (Some sel));
|}.

(** [constructor(root)] of [ViewModel]. *)
Definition newViewModel (root : Node) : M VMRef :=
  nodeMap ← newNodeMap ∅;
  dirtyNodes ← newKeySet [];
  dirtySubTrees ← newKeySet [];
  newViewModelObject (mkViewModel root nodeMap None dirtyNodes dirtySubTrees false).

(** [this.dirtyNodes.size > 0] *)
Definition hasDirtyNodes (this : VMRef) : M bool :=
  v ← derefViewModel this;
  s ← derefKeySet (dirtyNodes v);
  mret (bool_decide (0 < length s)).

(** [draft.nodeMap = {...current.nodeMap}]: the spread builds a new
    plain object with the own properties of the old one. *)
Definition cloneViewModel (current : VMRef) : M VMRef :=
  c ← derefViewModel current;
  draft ← newViewModel (root c);
  c ← derefViewModel current;
  m ← derefNodeMap (nodeMap c);
  copy ← newNodeMap m;
  assignViewModel draft (with_nodeMap copy);;
  mret draft.

(** The five statements of the body in sequence; nothing catches what
    [callbackFn] throws, so a throw skips the two assignments after
    the call. *)
Definition callCallbackWithViewModelScope
    (callbackFn : ViewType -> M unit) (viewModel : VMRef)
    (editor : EditorRef) (readOnly : bool) : M unit :=
  previousActiveViewModel ← gets activeViewModel;
  previousReadyOnlyMode ← gets activeReadyOnlyMode;
  modify (set_activeViewModel (Some viewModel));;
  modify (set_activeReadyOnlyMode readOnly);;
  callbackFn view;;
  modify (set_activeViewModel previousActiveViewModel);;
  modify (set_activeReadyOnlyMode previousReadyOnlyMode).

(** [nodeMap] is the reference held by the snapshot when the pass
    starts; [dirtyNodes] and [textTransforms] are the [Array.from]
    copies, taken before the first iteration. *)
Definition applyTextTransforms (viewModel : VMRef) (editor : EditorRef) : M unit :=
  e ← derefEditor editor;
  let textTransformsSet := _textTransforms e in
  if bool_decide (0 < length textTransformsSet) then
    v ← derefViewModel viewModel;
    let nodeMap := nodeMap v in
    dirtyNodes ← derefKeySet (dirtyNodes v);
    let textTransforms := textTransformsSet in
    for_loop (length dirtyNodes) (fun s =>
      match dirtyNodes !! s with
      | None => mret tt
      | Some nodeKey =>
          node ← getProperty nodeMap nodeKey;
          match node with
          | None => mret tt
          | Some node =>
              attached ← gets (isAttached node);
              if (attached : bool) then
                if instanceofTextNode node then
                  for_loop (length textTransforms) (fun i =>
                    match textTransforms !! i with
                    | None => mret tt
                    | Some f => textTransform f node view
                    end)
                else mret tt
              else mret tt
          end
      end)
  else mret tt.

Definition garbageCollectDetachedNodes (viewModel : VMRef) : M unit :=
  v ← derefViewModel viewModel;
  dirtyNodes ← derefKeySet (dirtyNodes v);
  let nodeMap := nodeMap v in
  for_loop (length dirtyNodes) (fun s =>
    match dirtyNodes !! s with
    | None => mret tt
    | Some nodeKey =>
        node ← getProperty nodeMap nodeKey;
        match node with
        | None => mret tt
        | Some node =>
            attached ← gets (isAttached node);
            if negb (attached : bool) then deleteProperty nodeMap nodeKey
            else mret tt
        end
    end).

(** The selection of the snapshot is compared with the selection of
    [editor.getCurrentViewModel()]. *)
Definition viewModelHasDirtySelection (viewModel : VMRef) (editor : EditorRef) : M bool :=
  v ← derefViewModel viewModel;
  current ← getCurrentViewModel editor;
  c ← derefViewModel current;
  let currentSelection := selection c in
  let selection := selection v in
  if bool_decide (currentSelection ≠ None) && bool_decide (selection = None)
     || bool_decide (currentSelection = None) && bool_decide (selection ≠ None)
  then mret true
  else mret (match selection with
             | None => false
             | Some sel => isDirty sel
             end).

(** [canUseExistingModel] is a short-circuit [&&]: the selection is
    looked at only when the snapshot has no dirty node. *)
Definition draftViewModel (currentViewModel : VMRef)
    (callbackFn : ViewType -> M unit) (editor : EditorRef) : M VMRef :=
  active ← gets activeViewModel;
  let hasActiveViewModel := bool_decide (active ≠ None) in
  viewModel ← (if hasActiveViewModel then getActiveViewModel
               else cloneViewModel currentViewModel);
  sel ← gets (createSelection viewModel editor);
  assignViewModel viewModel (with_selection sel);;
  callCallbackWithViewModelScope
    (fun v =>
       callbackFn v;;
       dirty ← hasDirtyNodes viewModel;
       if (dirty : bool) then
         applyTextTransforms viewModel editor;;
         garbageCollectDetachedNodes viewModel
       else mret tt)
    viewModel editor false;;
  dirty ← hasDirtyNodes viewModel;
  canUseExistingModel ←
    (if negb (dirty : bool) then
       dirtySelection ← viewModelHasDirtySelection viewModel editor;
       mret (negb dirtySelection)
     else mret false);
  mret (if (canUseExistingModel : bool) then currentViewModel else viewModel).

Definition readViewModel (viewModel : VMRef)
    (callbackFn : ViewType -> M unit) (editor : EditorRef) : M unit :=
  callCallbackWithViewModelScope callbackFn viewModel editor true.

(** [listeners] is the [Array.from] copy of the registry. *)
Definition triggerOnChange (editor : EditorRef) (viewModel : VMRef) : M unit :=
  e ← derefEditor editor;
  let listeners := _updateListeners e in
  for_loop (length listeners) (fun i =>
    match listeners !! i with
    | None => mret tt
    | Some f => updateListener f viewModel
    end).

Definition updateViewModel (viewModel : VMRef) (editor : EditorRef) : M unit :=
  previousActiveViewModel ← gets activeViewModel;
  modify (set_activeViewModel (Some viewModel));;
  reconcileViewModel viewModel editor;;
  modify (set_activeViewModel previousActiveViewModel);;
  assignEditor editor (with_viewModel viewModel);;
  triggerOnChange editor viewModel.

(** [nodes] is the local array; [nodes.push(dirtyNode)] appends. *)
Definition getDirtyNodes (this : VMRef) : M (list Node) :=
  v ← derefViewModel this;
  dirtyNodes ← derefKeySet (dirtyNodes v);
  let nodeMap := nodeMap v in
  for_loop_with (length dirtyNodes) (fun i nodes =>
    match dirtyNodes !! i with
    | None => mret nodes
    | Some dirtyNodeKey =>
        dirtyNode ← getProperty nodeMap dirtyNodeKey;
        match dirtyNode with
        | None => mret nodes
        | Some dirtyNode => mret (nodes ++ [dirtyNode])
        end
    end) [].

(** ** Vocabulary of the statements *)

(** The state a scope installs, and the state left when it is closed:
    [enterScope] is lines 114-115 of the source, [leaveScope before]
    is lines 117-118 with the two values saved from [before]. *)
Definition enterScope (viewModel : VMRef) (readOnly : bool) (w : World) : World :=
  set_activeReadyOnlyMode readOnly (set_activeViewModel (Some viewModel) w).

Definition leaveScope (before w : World) : World :=
  set_activeReadyOnlyMode (activeReadyOnlyMode before)
    (set_activeViewModel (activeViewModel before) w).

(** Two states that differ at most in the two ambient variables. *)
Definition sameStores (w1 w2 : World) : Prop :=
  viewModels w1 = viewModels w2 /\ nodeMaps w1 = nodeMaps w2 /\
  keySets w1 = keySets w2 /\ editors w1 = editors w2 /\ ext w1 = ext w2.

(** Running [f] on each member of a fixed sequence, in order. *)
Fixpoint forEach {A} (l : list A) (f : A -> M unit) : M unit :=
  match l with
  | [] => mret tt
  | x :: l' => f x ;; forEach l' f
  end.

(** The three phases of [draftViewModel]: choosing the snapshot and
    giving it a selection (lines 58-62), the function run inside the
    scope (lines 64-70), and the acceptance check (lines 76-79). *)
Definition draftBegin (currentViewModel : VMRef) (editor : EditorRef) : M VMRef :=
  active ← gets activeViewModel;
  viewModel ← (if bool_decide (active ≠ None) then getActiveViewModel
               else cloneViewModel currentViewModel);
  sel ← gets (createSelection viewModel editor);
  assignViewModel viewModel (with_selection sel);;
  mret viewModel.

Definition draftScope (callbackFn : ViewType -> M unit)
    (viewModel : VMRef) (editor : EditorRef) : ViewType -> M unit :=
  fun v =>
    callbackFn v;;
    dirty ← hasDirtyNodes viewModel;
    if (dirty : bool) then
      applyTextTransforms viewModel editor;;
      garbageCollectDetachedNodes viewModel
    else mret tt.

Definition draftAccept (currentViewModel viewModel : VMRef) (editor : EditorRef) : M VMRef :=
  dirty ← hasDirtyNodes viewModel;
  canUseExistingModel ←
    (if negb (dirty : bool) then
       dirtySelection ← viewModelHasDirtySelection viewModel editor;
       mret (negb dirtySelection)
     else mret false);
  mret (if (canUseExistingModel : bool) then currentViewModel else viewModel).

(** In the spec's words: the selection is dirty when one snapshot has
    a selection while the other has none, or when the new one reports
    being modified. *)
Definition selectionDirty (new current : option Selection) : bool :=
  match new, current with
  | None, Some _ => true
  | Some _, None => true
  | Some sel, Some _ => isDirty sel
  | None, None => false
  end.

(** In the spec's words: the transform pipeline.  The dirty keys [ks]
    and the functions [fs] are fixed sequences; each key that still
    resolves in the node map to an attached text node receives every
    function once, in order. *)
Definition transformVisit (fs : list FnId) (nodeMap : MapRef) (nodeKey : NodeKey) : M unit :=
  node ← getProperty nodeMap nodeKey;
  match node with
  | None => mret tt
  | Some node =>
      attached ← gets (isAttached node);
      if (attached : bool) && instanceofTextNode node
      then forEach fs (fun f => textTransform f node view)
      else mret tt
  end.

Definition transformPass (fs : list FnId) (ks : list NodeKey) (nodeMap : MapRef) : M unit :=
  forEach ks (transformVisit fs nodeMap).

(** What the collector does at one dirty key (lines 155-160). *)
Definition collectVisit (nodeMap : MapRef) (nodeKey : NodeKey) : M unit :=
  node ← getProperty nodeMap nodeKey;
  match node with
  | None => mret tt
  | Some node =>
      attached ← gets (isAttached node);
      if negb (attached : bool) then deleteProperty nodeMap nodeKey
      else mret tt
  end.

(** In the spec's words: the collector.  Each key of the fixed
    sequence that still resolves to a node that is not attached loses
    its entry. *)
Definition collect (attached : Node -> bool) (ks : list NodeKey)
    (m : gmap string nat) : gmap string nat :=
  foldl (fun m k =>
           match m !! k with
           | Some node => if attached node then m else delete k m
           | None => m
           end) m ks.

(** The data model takes a node to be attached iff it is reachable
    from the root, whether or not it still has an entry in a node map.
    The collector needs less: dropping the entry of a node that is not
    attached changes no node's answer. *)
Definition CollectionStable : Prop :=
  forall (w : World) (nodeMap : MapRef) (m : gmap string nat)
         (k : NodeKey) (node node' : Node),
    nodeMaps w !! nodeMap = Some m -> m !! k = Some node ->
    isAttached node w = false ->
    isAttached node' (set_nodeMaps (<[nodeMap := delete k m]> (nodeMaps w)) w)
    = isAttached node' w.

(** Modelled from the spec: the node-mutation helpers live in
    OutlineNode, not in this file.  A helper that writes to a node
    first asserts the scope is writable, then records the node's key in
    the [dirtyNodes] set of the active snapshot ([Set.prototype.add]
    keeps insertion order and ignores a member it already has). *)
Definition setAdd (s : SetRef) (k : NodeKey) : M unit :=
  l ← derefKeySet s;
  modify (fun w =>
    set_keySets (<[s := if bool_decide (k ∈ l) then l else l ++ [k]]> (keySets w)) w).

Definition markNodeAsDirty (k : NodeKey) : M unit :=
  shouldErrorOnReadOnly;;
  viewModel ← getActiveViewModel;
  v ← derefViewModel viewModel;
  setAdd (dirtyNodes v) k.

(** How a dirty set [l'] relates to the keys [l] known to have been
    marked: it holds exactly those keys, or at least those keys. *)
Inductive Extent :=
| Exactly
| AtLeast.

Definition covers (x : Extent) (l l' : list NodeKey) : Prop :=
  match x with
  | Exactly => forall k, k ∈ l' <-> k ∈ l
  | AtLeast => forall k, k ∈ l -> k ∈ l'
  end.

(** The states met while a writable scope is open on the snapshot
    [viewModel]: [dn] is its dirty set and [nm] its node map, [l] the
    keys marked so far, [snapshots] the snapshot objects that exist;
    the editor and its current snapshot are there. *)
Definition InTransaction (x : Extent) (editor : EditorRef) (viewModel : VMRef)
    (dn : SetRef) (nm : MapRef) (snapshots : gset nat) (l : list NodeKey)
    (w : World) : Prop :=
  activeViewModel w = Some viewModel /\
  activeReadyOnlyMode w = false /\
  dom (viewModels w) = snapshots /\
  (exists v, viewModels w !! viewModel = Some v /\ dirtyNodes v = dn /\
             nodeMap v = nm) /\
  is_Some (nodeMaps w !! nm) /\
  (exists l', keySets w !! dn = Some l' /\ covers x l l') /\
  (exists e, editors w !! editor = Some e /\
             is_Some (viewModels w !! _viewModel e)).

(** What it means for a piece of a mutation callback, or for a text
    transform, to dirty the nodes [ks]: run inside a transaction it
    returns, still inside that transaction, having created no snapshot
    object, with the keys [ks] added to the dirty set of the active
    snapshot.  With [Exactly] it adds those keys and no other, with
    [AtLeast] it may add more; in both cases it removes none. *)
Definition Dirties (x : Extent) (editor : EditorRef) (c : M unit)
    (ks : list NodeKey) : Prop :=
  forall viewModel dn nm snapshots l w,
    InTransaction x editor viewModel dn nm snapshots l w ->
    exists w1, c w = Returned tt w1 /\
               InTransaction x editor viewModel dn nm snapshots (l ++ ks) w1.

(** What a transaction started with no scope active leaves behind when
    it has dirtied no node: one new snapshot object [d] at [draft],
    forked from [c] whose node map is [m], with its own node map
    holding [m] and an empty dirty set, and every object that existed
    in [w], the outside world and the ambient variables as in [w]. *)
Definition ForkFrame (w : World) (c : ViewModel) (m : gmap string nat)
    (draft : VMRef) (d : ViewModel) (w1 : World) : Prop :=
  viewModels w !! draft = None /\
  viewModels w1 = <[draft := d]> (viewModels w) /\
  root d = root c /\
  nodeMaps w !! nodeMap d = None /\
  nodeMaps w1 !! nodeMap d = Some m /\
  keySets w !! dirtyNodes d = None /\
  keySets w1 !! dirtyNodes d = Some [] /\
  (forall r, is_Some (nodeMaps w !! r) -> nodeMaps w1 !! r = nodeMaps w !! r) /\
  (forall r, is_Some (keySets w !! r) -> keySets w1 !! r = keySets w !! r) /\
  editors w1 = editors w /\ ext w1 = ext w /\
  activeViewModel w1 = activeViewModel w /\
  activeReadyOnlyMode w1 = activeReadyOnlyMode w.

End Model.

Arguments Returned {Ext A} a w.
Arguments Threw {Ext A} e w.

(** ** A concrete host

    An instance of the collaborators on which the module can be run.
    The outside world is the list of the node objects that are attached
    and a log of the calls received by transforms and listeners. *)

Record HostState := mkHostState {
  attachedNodes : list Node;
  calls : list (FnId * nat);
}.

Definition logCall (f : FnId) (x : nat) : @M HostState unit :=
  modify (fun w =>
    set_ext (mkHostState (attachedNodes (ext w)) (calls (ext w) ++ [(f, x)])) w).

(** Node 0 is the root; every other node is a text node.  A new
    selection is never dirty.  The reconciler does nothing visible to
    this module.  A transform or a listener logs the call. *)
#[local] Instance loggingHost : @Collaborators HostState := {|
  isAttached := fun node w => bool_decide (node ∈ attachedNodes (ext w));
  instanceofTextNode := fun node => bool_decide (node ≠ 0);
  createSelection := fun _ _ _ => Some (mkSelection false 7);
  reconcileViewModel := fun _ _ => mret tt;
  import_getNodeByKey := fun k =>
    viewModel ← getActiveViewModel;
    v ← derefViewModel viewModel;
    m ← derefNodeMap (nodeMap v);
    mret (m !! k);
  import_getSelection :=
    viewModel ← getActiveViewModel;
    v ← derefViewModel viewModel;
    mret (selection v);
  textTransform := fun f node _ => logCall f node;
  updateListener := fun f viewModel => logCall f viewModel;
|}.

(** An editor (0) with two transforms and two listeners whose current
    snapshot (0) holds the root, an attached text node under "a", and
    two detached text nodes under "b" and "c"; an editor (1) on the
    same snapshot with nothing registered; and a second snapshot (1)
    with the same nodes, no selection, and the keys "a", "b", "root"
    and "gone" in its dirty set. *)
Definition documentNodes : gmap string nat :=
  <["root" := 0]> (<["a" := 1]> (<["b" := 2]> (<["c" := 3]> ∅))).

Definition idleWorld : @World HostState := {|
  activeViewModel := None;
  activeReadyOnlyMode := false;
  viewModels :=
    <[0 := mkViewModel 0 0 (Some (mkSelection false 7)) 0 1 false]>
    (<[1 := mkViewModel 0 1 None 2 3 false]> ∅);
  nodeMaps := <[0 := documentNodes]> (<[1 := documentNodes]> ∅);
  keySets :=
    <[0 := []]> (<[1 := []]> (<[2 := ["a"; "b"; "root"; "gone"]]> (<[3 := []]> ∅)));
  editors := <[0 := mkEditor 0 [10; 11] [20; 21]]> (<[1 := mkEditor 0 [] []]> ∅);
  ext := mkHostState [0; 1] [];
|}.

(** A callback that throws, one that does nothing, one that marks the
    node under "a" dirty. *)
Definition throwingCallback : @ViewType HostState -> @M HostState unit :=
  fun _ => throw (JsOther 0).

Definition idleCallback : @ViewType HostState -> @M HostState unit :=
  fun _ => mret tt.

Definition editingCallback : @ViewType HostState -> @M HostState unit :=
  fun _ => markNodeAsDirty "a".

(** The states an editing transaction on editor 0 goes through: after
    the snapshot is forked and given a selection, after the callback,
    and after the whole scoped part. *)
Definition forkedWorld : @World HostState :=
  world_of (draftBegin 0 0 idleWorld).

Definition editedWorld : @World HostState :=
  world_of (editingCallback view (enterScope 2 false forkedWorld)).

Definition scopedWorld : @World HostState :=
  world_of (draftScope editingCallback 2 0 view (enterScope 2 false forkedWorld)).

(** The three parts of a callback that marks "a" dirty, runs a nested
    transaction marking "b" dirty, and then marks "c" and "a" dirty. *)
Definition markBefore : @ViewType HostState -> @M HostState unit :=
  fun _ => forEach ["a"] markNodeAsDirty.

Definition markInner : @ViewType HostState -> @M HostState unit :=
  fun _ => forEach ["b"] markNodeAsDirty.

Definition markAfter : @ViewType HostState -> @M HostState unit :=
  fun _ => forEach ["c"; "a"] markNodeAsDirty.

(** A host whose text transforms mark the node under "d" dirty, and a
    callback for it that marks "a" dirty and runs a nested transaction
    marking "b" dirty. *)
Definition dirtyingHost : @Collaborators HostState := {|
  isAttached := fun node w => bool_decide (node ∈ attachedNodes (ext w));
  instanceofTextNode := fun node => bool_decide (node ≠ 0);
  createSelection := fun _ _ _ => Some (mkSelection false 7);
  reconcileViewModel := fun _ _ => mret tt;
  import_getNodeByKey := fun _ => mret None;
  import_getSelection := mret None;
  textTransform := fun _ _ _ => markNodeAsDirty "d";
  updateListener := fun f viewModel => logCall f viewModel;
|}.

Definition nestingCallback : @ViewType HostState -> @M HostState unit :=
  fun _ =>
    forEach ["a"] markNodeAsDirty;;
    draftViewModel (host := dirtyingHost) 0
      (fun _ => forEach ["b"] markNodeAsDirty) 0;;
    mret tt.

(** A read callback that reaches a mutation helper through a nested
    transaction. *)
Definition nestedEditCallback : @ViewType HostState -> @M HostState unit :=
  fun _ => draftViewModel 1 editingCallback 0;; mret tt.

(** A second host whose text transforms interfere with the pass that
    runs them: besides logging the call, a transform attaches node 3,
    marks its key "c" dirty in the set of snapshot 1 and registers a
    further transform (12) with editor 0. *)
Definition interferingTransform (f : FnId) (node : Node) : @M HostState unit :=
  logCall f node;;
  modify (fun w =>
    set_ext (mkHostState (3 :: attachedNodes (ext w)) (calls (ext w))) w);;
  setAdd 2 "c";;
  assignEditor 0 (fun e =>
    mkEditor (_viewModel e) (_textTransforms e ++ [12]) (_updateListeners e)).

Definition interferingHost : @Collaborators HostState := {|
  isAttached := fun node w => bool_decide (node ∈ attachedNodes (ext w));
  instanceofTextNode := fun node => bool_decide (node ≠ 0);
  createSelection := fun _ _ _ => Some (mkSelection false 7);
  reconcileViewModel := fun _ _ => mret tt;
  import_getNodeByKey := fun _ => mret None;
  import_getSelection := mret None;
  textTransform := fun f node _ => interferingTransform f node;
  updateListener := fun f viewModel => logCall f viewModel;
|}.

(** A callback that asserts writability and writes nothing. *)
Definition assertingCallback : @ViewType HostState -> @M HostState unit :=
  fun _ => shouldErrorOnReadOnly.

(** The idle state with a scope left open on snapshot 0, and a host
    whose reconciler throws for editor 1 and whose listener 21 throws. *)
Definition openWorld : @World HostState := enterScope 0 false idleWorld.

Definition failingHost : @Collaborators HostState := {|
  isAttached := fun node w => bool_decide (node ∈ attachedNodes (ext w));
  instanceofTextNode := fun node => bool_decide (node ≠ 0);
  createSelection := fun _ _ _ => Some (mkSelection false 7);
  reconcileViewModel := fun _ editor =>
    if bool_decide (editor = 1) then throw (JsOther 1) else mret tt;
  import_getNodeByKey := fun _ => mret None;
  import_getSelection := mret None;
  textTransform := fun f node _ => logCall f node;
  updateListener := fun f viewModel =>
    if bool_decide (f = 21) then throw (JsOther 2) else logCall f viewModel;
|}.

(** ** The image node

    The second half of the file declares [ImageNode], a decorator node.
    Its constructor and [clone] are plain functions of their arguments.
    A JavaScript number is kept abstract together with its truthiness
    ([0], [-0] and [NaN] are falsy); what the base class constructor
    does with [state] and [key] is a parameter. *)

Section ImageNode.

Context {JsNumber Base DecoratorMap : Type}.
Context (truthy : JsNumber -> bool).
(** [super(state, key)] and the two fields it owns. *)
Context (DecoratorNode : option DecoratorMap -> option NodeKey -> Base).
Context (base_state : Base -> DecoratorMap) (base_key : Base -> NodeKey).

(** ['inherit' | number] *)
Inductive Dimension :=
| Inherit
| Pixels (n : JsNumber).

Record ImageNode := mkImageNode {
  image_base : Base;
  __src : string;
  __altText : string;
  __maxWidth : JsNumber;
  __width : Dimension;
  __height : Dimension;
  __caption : bool;
}.

(** [width || 'inherit']: the left operand when it is truthy.  An
    omitted argument is [undefined]; the string ['inherit'] is truthy. *)
Definition orInherit (d : option Dimension) : Dimension :=
  match d with
  | Some (Pixels n) => if truthy n then Pixels n else Inherit
  | Some Inherit => Inherit
  | None => Inherit
  end.

(** [caption || false] *)
Definition orFalse (b : option bool) : bool :=
  match b with
  | Some true => true
  | _ => false
  end.

(** [constructor(src, altText, maxWidth, state, width, height, caption, key)] *)
Definition newImageNode (src altText : string) (maxWidth : JsNumber)
    (state : option DecoratorMap) (width height : option Dimension)
    (caption : option bool) (key : option NodeKey) : ImageNode :=
  mkImageNode (DecoratorNode state key) src altText maxWidth
              (orInherit width) (orInherit height) (orFalse caption).

(** [static clone(node)] *)
Definition cloneImageNode (node : ImageNode) : ImageNode :=
  newImageNode (__src node) (__altText node) (__maxWidth node)
    (Some (base_state (image_base node)))
    (Some (__width node)) (Some (__height node))
    (Some (__caption node)) (Some (base_key (image_base node))).

(** [$createImageNode(src, altText, maxWidth)] *)
Definition createImageNode (src altText : string) (maxWidth : JsNumber) : ImageNode :=
  newImageNode src altText maxWidth None None None None None.

(** A dimension that [||] lets through. *)
Definition keptDimension (d : Dimension) : bool :=
  match d with
  | Inherit => true
  | Pixels n => truthy n
  end.

End ImageNode.

(** ** Reasoning about computations *)

Section Properties.

Context {Ext : Type} {host : @Collaborators Ext}.

Implicit Types (w : @World Ext) (viewModel current draft : VMRef).

Lemma bind_returned {A B} (c : M A) (k : A -> M B) w a w1 :
  c w = Returned a w1 -> (c ≫= k) w = k a w1.
Proof. intros H. unfold mbind, M_bind. by rewrite H. Qed.

Lemma bind_threw {A B} (c : M A) (k : A -> M B) w e w1 :
  c w = Threw e w1 -> (c ≫= k) w = Threw e w1.
Proof. intros H. unfold mbind, M_bind. by rewrite H. Qed.

Lemma bind_returned_inv {A B} (c : M A) (k : A -> M B) w b w2 :
  (c ≫= k) w = Returned b w2 ->
  exists a w1, c w = Returned a w1 /\ k a w1 = Returned b w2.
Proof.
  unfold mbind, M_bind. destruct (c w) as [a w1|e w1]; [|done].
  intros H. by exists a, w1.
Qed.

Lemma deref_some {A} (heap : World -> gmap nat A) r w o :
  heap w !! r = Some o -> deref heap r w = Returned o w.
Proof. intros H. unfold deref. by rewrite H. Qed.

(** The step taken over and over: a member access that succeeds. *)
Ltac step_deref := erewrite bind_returned by (by apply deref_some).

Lemma deref_returned_inv {A} (heap : World -> gmap nat A) r w o w1 :
  deref heap r w = Returned o w1 -> heap w !! r = Some o /\ w1 = w.
Proof. unfold deref. destruct (heap w !! r); naive_solver. Qed.

Lemma draftViewModel_phases currentViewModel callbackFn editor w :
  draftViewModel currentViewModel callbackFn editor w =
  (viewModel ← draftBegin currentViewModel editor;
   callCallbackWithViewModelScope
     (draftScope callbackFn viewModel editor) viewModel editor false;;
   draftAccept currentViewModel viewModel editor) w.
Proof.
  unfold draftViewModel, draftBegin, draftAccept, draftScope.
  unfold mbind, M_bind, mret, M_ret, gets. simpl.
  destruct (bool_decide _).
  - destruct (getActiveViewModel w) as [vm w0|]; [|done].
    destruct (assignViewModel _ _ _); done.
  - destruct (cloneViewModel _ w) as [vm w0|]; [|done].
    destruct (assignViewModel _ _ _); done.
Qed.

Lemma scope_run callbackFn viewModel editor readOnly w :
  callCallbackWithViewModelScope callbackFn viewModel editor readOnly w =
  match callbackFn view (enterScope viewModel readOnly w) with
  | Returned _ w1 => Returned tt (leaveScope w w1)
  | Threw e w1 => Threw e w1
  end.
Proof.
  unfold callCallbackWithViewModelScope, enterScope, leaveScope.
  unfold mbind, M_bind, gets, modify. simpl.
  by destruct (callbackFn _ _).
Qed.

(** C1 (as amended).  When the callback returns, the scope returns
    and the two ambient variables hold the values they held before the
    invocation, the stores being those the callback left.  When the
    callback throws, the same error leaves the scope with the state
    exactly as the callback left it: nothing is restored. *)
Theorem scope_restores_on_return callbackFn viewModel editor readOnly w :
  match callbackFn view (enterScope viewModel readOnly w) with
  | Returned _ w1 =>
      exists w2,
        callCallbackWithViewModelScope callbackFn viewModel editor readOnly w
          = Returned tt w2 /\
        activeViewModel w2 = activeViewModel w /\
        activeReadyOnlyMode w2 = activeReadyOnlyMode w /\
        sameStores w2 w1
  | Threw e w1 =>
      callCallbackWithViewModelScope callbackFn viewModel editor readOnly w
        = Threw e w1
  end.
Proof.
  rewrite scope_run.
  destruct (callbackFn _ _) as [[] w1|e w1]; [|done].
  exists (leaveScope w w1). by repeat split.
Qed.

(** *** Forking *)

Lemma fresh_lookup {A} (h : gmap nat A) : h !! fresh (dom h) = None.
Proof. apply not_elem_of_dom, is_fresh. Qed.

Lemma cloneViewModel_run current c m w :
  viewModels w !! current = Some c ->
  nodeMaps w !! nodeMap c = Some m ->
  let empty := fresh (dom (nodeMaps w)) in
  let copy := fresh (dom (<[empty := ∅]> (nodeMaps w))) in
  let dn := fresh (dom (keySets w)) in
  let ds := fresh (dom (<[dn := []]> (keySets w))) in
  let draft := fresh (dom (viewModels w)) in
  cloneViewModel current w =
  Returned draft
    (set_viewModels
       (<[draft := mkViewModel (root c) copy None dn ds false]> (viewModels w))
       (set_keySets (<[ds := []]> (<[dn := []]> (keySets w)))
          (set_nodeMaps (<[copy := m]> (<[empty := ∅]> (nodeMaps w))) w))).
Proof.
  destruct w as [a ro vms nms kss eds x]. simpl. intros Hc Hm.
  assert (fresh (dom vms) ≠ current) as Hne.
  { intros E. pose proof (fresh_lookup vms) as F. rewrite E in F. congruence. }
  assert (fresh (dom nms) ≠ nodeMap c) as Hne'.
  { intros E. pose proof (fresh_lookup nms) as F. rewrite E in F. congruence. }
  unfold cloneViewModel, newViewModel, newNodeMap, newKeySet, newViewModelObject,
    assignViewModel, derefViewModel, derefNodeMap, deref, modify.
  unfold mbind, M_bind, mret, M_ret. simpl. rewrite Hc. simpl.
  rewrite lookup_insert_ne by done. rewrite Hc. simpl.
  rewrite lookup_insert_ne by done. rewrite Hm. simpl.
  rewrite lookup_insert_eq. simpl.
  unfold set_viewModels, set_keySets, set_nodeMaps. simpl.
  by rewrite insert_insert_eq.
Qed.

(** C9.  Forking a snapshot [current] allocates a snapshot object that
    did not exist before and leaves every existing object as it was.
    The fork has the root of [current], no selection, and is not
    historic; its node map is a new object holding exactly the
    associations of the node map of [current] (the same node objects
    under the same keys), so writing to either map leaves the other
    alone; its two dirty sets are two new, distinct, empty sets. *)
Theorem cloneViewModel_fork current c m w :
  viewModels w !! current = Some c ->
  nodeMaps w !! nodeMap c = Some m ->
  exists draft d w1,
    cloneViewModel current w = Returned draft w1 /\
    (* a new snapshot object; the others are untouched *)
    viewModels w !! draft = None /\
    viewModels w1 = <[draft := d]> (viewModels w) /\
    root d = root c /\ selection d = None /\ isHistoric d = false /\
    (* a new node map object with the same associations *)
    nodeMaps w !! nodeMap d = None /\
    nodeMaps w1 !! nodeMap d = Some m /\
    nodeMap d ≠ nodeMap c /\
    (forall r, is_Some (nodeMaps w !! r) -> nodeMaps w1 !! r = nodeMaps w !! r) /\
    (forall m', <[nodeMap d := m']> (nodeMaps w1) !! nodeMap c = Some m) /\
    (forall m', <[nodeMap c := m']> (nodeMaps w1) !! nodeMap d = Some m) /\
    (* two new, distinct, empty dirty sets *)
    keySets w !! dirtyNodes d = None /\
    keySets w !! dirtySubTrees d = None /\
    dirtyNodes d ≠ dirtySubTrees d /\
    keySets w1 !! dirtyNodes d = Some [] /\
    keySets w1 !! dirtySubTrees d = Some [] /\
    (forall r, is_Some (keySets w !! r) -> keySets w1 !! r = keySets w !! r) /\
    (* nothing else changes *)
    activeViewModel w1 = activeViewModel w /\
    activeReadyOnlyMode w1 = activeReadyOnlyMode w /\
    editors w1 = editors w /\ ext w1 = ext w.
Proof.
  intros Hc Hm.
  pose proof (cloneViewModel_run current c m w Hc Hm) as Hrun. simpl in Hrun.
  set (empty := fresh (dom (nodeMaps w))) in *.
  set (copy := fresh (dom (<[empty := ∅]> (nodeMaps w)))) in *.
  set (dn := fresh (dom (keySets w))) in *.
  set (ds := fresh (dom (<[dn := []]> (keySets w)))) in *.
  set (draft := fresh (dom (viewModels w))) in *.
  pose proof (fresh_lookup (nodeMaps w)) as Fempty. fold empty in Fempty.
  pose proof (fresh_lookup (<[empty := ∅]> (nodeMaps w))) as Fcopy. fold copy in Fcopy.
  pose proof (fresh_lookup (keySets w)) as Fdn. fold dn in Fdn.
  pose proof (fresh_lookup (<[dn := []]> (keySets w))) as Fds. fold ds in Fds.
  assert (copy ≠ empty) as Hce.
  { intros E. rewrite E, lookup_insert_eq in Fcopy. done. }
  assert (ds ≠ dn) as Hdd.
  { intros E. rewrite E, lookup_insert_eq in Fds. done. }
  rewrite lookup_insert_ne in Fcopy by done.
  rewrite lookup_insert_ne in Fds by done.
  assert (copy ≠ nodeMap c) as Hcc by (intros E; rewrite E in Fcopy; congruence).
  assert (empty ≠ nodeMap c) as Hec by (intros E; rewrite E in Fempty; congruence).
  eexists draft, _, _. split; [exact Hrun|]. simpl.
  split_and!; try done.
  - apply fresh_lookup.
  - by rewrite lookup_insert_eq.
  - intros r [x Hr].
    rewrite !lookup_insert_ne; [done| |]; intros E; subst r; congruence.
  - intros m'. rewrite !lookup_insert_ne by done. done.
  - intros m'. rewrite lookup_insert_ne by done. by rewrite lookup_insert_eq.
  - rewrite lookup_insert_ne by done. by rewrite lookup_insert_eq.
  - by rewrite lookup_insert_eq.
  - intros r [x Hr].
    rewrite !lookup_insert_ne; [done| |]; intros E; subst r; congruence.
Qed.

Lemma cloneViewModel_inv current w draft w0 :
  cloneViewModel current w = Returned draft w0 ->
  activeViewModel w0 = activeViewModel w /\
  activeReadyOnlyMode w0 = activeReadyOnlyMode w /\
  viewModels w !! draft = None /\
  is_Some (viewModels w !! current) /\
  is_Some (viewModels w0 !! draft).
Proof.
  destruct w as [a ro vms nms kss eds x].
  unfold cloneViewModel, newViewModel, newNodeMap, newKeySet, newViewModelObject,
    assignViewModel, derefViewModel, derefNodeMap, deref, modify.
  unfold mbind, M_bind, mret, M_ret. simpl.
  destruct (vms !! current) as [c|] eqn:Hc; [|done]. simpl.
  assert (fresh (dom vms) ≠ current) as Hne.
  { intros E. pose proof (fresh_lookup vms) as F. rewrite E in F. congruence. }
  rewrite lookup_insert_ne by done. rewrite Hc. simpl.
  destruct (<[fresh (dom nms):=∅]> nms !! nodeMap c) as [m|]; [|done]. simpl.
  rewrite lookup_insert_eq. simpl. intros [= <- <-]. simpl.
  rewrite lookup_insert_eq. split_and!; eauto using fresh_lookup.
Qed.

(** *** Reads *)

Lemma getActiveViewModel_run w :
  getActiveViewModel w =
  match activeViewModel w with
  | Some viewModel => Returned viewModel w
  | None => Threw NoActiveScope w
  end.
Proof. unfold getActiveViewModel, mbind, M_bind, gets. simpl. by destruct (activeViewModel w). Qed.

Lemma hasDirtyNodes_run viewModel v ks w :
  viewModels w !! viewModel = Some v ->
  keySets w !! dirtyNodes v = Some ks ->
  hasDirtyNodes viewModel w = Returned (bool_decide (0 < length ks)) w.
Proof.
  intros Hv Hks. unfold hasDirtyNodes, derefViewModel, derefKeySet, deref.
  unfold mbind, M_bind, mret, M_ret. by rewrite Hv, Hks.
Qed.

Lemma hasDirtyNodes_inv viewModel w b w1 :
  hasDirtyNodes viewModel w = Returned b w1 ->
  w1 = w /\ exists v ks,
    viewModels w !! viewModel = Some v /\ keySets w !! dirtyNodes v = Some ks /\
    b = bool_decide (0 < length ks).
Proof.
  unfold hasDirtyNodes, derefViewModel, derefKeySet, deref.
  unfold mbind, M_bind, mret, M_ret.
  destruct (viewModels w !! viewModel) as [v|] eqn:Hv; [|done].
  destruct (keySets w !! dirtyNodes v) as [ks|] eqn:Hks; [|done].
  intros [= <- <-]. split; [done|]. by exists v, ks.
Qed.

Lemma viewModelHasDirtySelection_run viewModel editor v e c w :
  viewModels w !! viewModel = Some v ->
  editors w !! editor = Some e ->
  viewModels w !! _viewModel e = Some c ->
  viewModelHasDirtySelection viewModel editor w
  = Returned (selectionDirty (selection v) (selection c)) w.
Proof.
  intros Hv He Hc.
  unfold viewModelHasDirtySelection, getCurrentViewModel, derefViewModel,
    derefEditor, deref.
  unfold mbind, M_bind, mret, M_ret. rewrite Hv, He. simpl. rewrite Hc.
  by destruct (selection v), (selection c).
Qed.

Lemma viewModelHasDirtySelection_inv viewModel editor w b w1 :
  viewModelHasDirtySelection viewModel editor w = Returned b w1 ->
  w1 = w /\ exists v e c,
    viewModels w !! viewModel = Some v /\ editors w !! editor = Some e /\
    viewModels w !! _viewModel e = Some c /\
    b = selectionDirty (selection v) (selection c).
Proof.
  intros H.
  destruct (viewModels w !! viewModel) as [v|] eqn:Hv; cycle 1.
  { revert H. unfold viewModelHasDirtySelection, derefViewModel, deref, mbind, M_bind.
    by rewrite Hv. }
  destruct (editors w !! editor) as [e|] eqn:He; cycle 1.
  { revert H. unfold viewModelHasDirtySelection, getCurrentViewModel, derefViewModel,
      derefEditor, deref, mbind, M_bind. by rewrite Hv, He. }
  destruct (viewModels w !! _viewModel e) as [c|] eqn:Hc; cycle 1.
  { revert H. unfold viewModelHasDirtySelection, getCurrentViewModel, derefViewModel,
      derefEditor, deref, mbind, M_bind, mret, M_ret. rewrite Hv, He. simpl.
    by rewrite Hc. }
  rewrite (viewModelHasDirtySelection_run _ _ v e c) in H by done.
  injection H as <- <-. split; [done|]. by exists v, e, c.
Qed.

Lemma draftAccept_dirty currentViewModel viewModel editor v ks w :
  viewModels w !! viewModel = Some v ->
  keySets w !! dirtyNodes v = Some ks ->
  ks ≠ [] ->
  draftAccept currentViewModel viewModel editor w = Returned viewModel w.
Proof.
  intros Hv Hks Hne. unfold draftAccept.
  erewrite bind_returned by (by eapply hasDirtyNodes_run).
  rewrite bool_decide_true; [done|]. destruct ks; [done|simpl; lia].
Qed.

Lemma draftAccept_clean currentViewModel viewModel editor v e c w :
  viewModels w !! viewModel = Some v ->
  keySets w !! dirtyNodes v = Some [] ->
  editors w !! editor = Some e ->
  viewModels w !! _viewModel e = Some c ->
  draftAccept currentViewModel viewModel editor w
  = Returned (if selectionDirty (selection v) (selection c)
              then viewModel else currentViewModel) w.
Proof.
  intros Hv Hks He Hc. unfold draftAccept.
  erewrite bind_returned by (by eapply hasDirtyNodes_run).
  rewrite bool_decide_false by (simpl; lia). simpl.
  erewrite bind_returned; cycle 1.
  { erewrite bind_returned by (by eapply viewModelHasDirtySelection_run). done. }
  unfold mret, M_ret. by destruct (selectionDirty _ _).
Qed.

Lemma draftAccept_inv currentViewModel viewModel editor w r w1 :
  draftAccept currentViewModel viewModel editor w = Returned r w1 -> w1 = w.
Proof.
  unfold draftAccept. intros H.
  apply bind_returned_inv in H as (b & w2 & Hd & H).
  apply hasDirtyNodes_inv in Hd as [-> _].
  apply bind_returned_inv in H as (b' & w3 & Hs & H).
  injection H as _ <-.
  destruct b; simpl in Hs.
  - by injection Hs as _ <-.
  - apply bind_returned_inv in Hs as (b'' & w4 & Hs & H).
    apply viewModelHasDirtySelection_inv in Hs as [-> _].
    by injection H as _ <-.
Qed.

Lemma draftBegin_inv currentViewModel editor w viewModel w0 :
  draftBegin currentViewModel editor w = Returned viewModel w0 ->
  activeViewModel w0 = activeViewModel w /\
  activeReadyOnlyMode w0 = activeReadyOnlyMode w /\
  is_Some (viewModels w0 !! viewModel) /\
  match activeViewModel w with
  | Some active => viewModel = active
  | None => viewModels w !! viewModel = None /\
            is_Some (viewModels w !! currentViewModel)
  end.
Proof.
  unfold draftBegin. intros H.
  apply bind_returned_inv in H as (a & w1 & Ha & H).
  injection Ha as <- <-.
  apply bind_returned_inv in H as (vm & w1 & Hvm & H).
  apply bind_returned_inv in H as (sel & w2 & Hsel & H).
  injection Hsel as <- <-.
  apply bind_returned_inv in H as ([] & w3 & Hassign & H).
  injection H as <- <-.
  unfold assignViewModel in Hassign.
  apply bind_returned_inv in Hassign as (v & w4 & Hv & Hassign).
  apply deref_returned_inv in Hv as [Hv ->].
  injection Hassign as <-. simpl.
  rewrite lookup_insert_eq.
  destruct (activeViewModel w) as [active|] eqn:Hactive.
  - rewrite bool_decide_true in Hvm by done.
    rewrite getActiveViewModel_run, Hactive in Hvm. injection Hvm as <- <-.
    by rewrite Hactive.
  - rewrite bool_decide_false in Hvm by naive_solver.
    destruct (cloneViewModel_inv _ _ _ _ Hvm) as (Ha & Hro & Hfresh & Hcur & _).
    simpl. rewrite Ha, Hactive. split_and!; eauto.
Qed.

(** *** The ambient helpers *)

Lemma readViewModel_inv viewModel callbackFn editor w w1 :
  readViewModel viewModel callbackFn editor w = Returned tt w1 ->
  activeViewModel w1 = activeViewModel w /\
  activeReadyOnlyMode w1 = activeReadyOnlyMode w.
Proof.
  unfold readViewModel. rewrite scope_run.
  destruct (callbackFn _ _) as [[] w2|]; [|done]. by intros [= <-].
Qed.

Lemma draftViewModel_inv currentViewModel callbackFn editor w r w1 :
  draftViewModel currentViewModel callbackFn editor w = Returned r w1 ->
  activeViewModel w1 = activeViewModel w /\
  activeReadyOnlyMode w1 = activeReadyOnlyMode w.
Proof.
  rewrite draftViewModel_phases. intros H.
  apply bind_returned_inv in H as (vm & w0 & Hbegin & H).
  apply bind_returned_inv in H as ([] & w2 & Hscope & H).
  apply draftAccept_inv in H as ->.
  apply draftBegin_inv in Hbegin as (Ha & Hro & _).
  rewrite scope_run in Hscope.
  destruct (draftScope _ _ _ _ _) as [[] w3|]; [|done].
  injection Hscope as <-. simpl. by rewrite Ha, Hro.
Qed.

(** C7 (as amended).  When no scope is active in the sense of the
    code, that is when [activeViewModel] is [null],
    [getActiveViewModel] throws instead of returning, and so do the
    view helpers that call it, [view.getRoot] and [view.setSelection];
    the state is left as it was.  That is the case outside every
    callback as long as scopes are left by returning: after a
    [readViewModel] or a [draftViewModel] that started with no scope
    active has returned, no scope is active again, and the helper
    throws there too. *)
Theorem helpers_throw_outside_scope w :
  activeViewModel w = None ->
  getActiveViewModel w = Threw NoActiveScope w /\
  getRoot view w = Threw NoActiveScope w /\
  (forall sel, setSelection view sel w = Threw NoActiveScope w) /\
  (forall viewModel callbackFn editor w1,
     readViewModel viewModel callbackFn editor w = Returned tt w1 ->
     getActiveViewModel w1 = Threw NoActiveScope w1) /\
  (forall currentViewModel callbackFn editor r w1,
     draftViewModel currentViewModel callbackFn editor w = Returned r w1 ->
     getActiveViewModel w1 = Threw NoActiveScope w1).
Proof.
  intros Hnone.
  assert (forall w', activeViewModel w' = None ->
                     getActiveViewModel w' = Threw NoActiveScope w') as Hthrow.
  { intros w' H. by rewrite getActiveViewModel_run, H. }
  split_and!.
  - by apply Hthrow.
  - simpl. by erewrite bind_threw by (by apply Hthrow).
  - intros sel. simpl. by erewrite bind_threw by (by apply Hthrow).
  - intros vm cb ed w1 H. apply Hthrow.
    apply readViewModel_inv in H as [-> _]. done.
  - intros cur cb ed r w1 H. apply Hthrow.
    apply draftViewModel_inv in H as [-> _]. done.
Qed.

Lemma shouldErrorOnReadOnly_run w :
  shouldErrorOnReadOnly w =
  if activeReadyOnlyMode w then Threw ReadOnlyViolation w else Returned tt w.
Proof.
  unfold shouldErrorOnReadOnly, invariant, mbind, M_bind, gets. simpl.
  by destruct (activeReadyOnlyMode w).
Qed.

(** C8 (as amended).  A mutation helper is a computation that asserts
    writability and then mutates.  Wherever the read-only flag is set
    it throws the read-only error and leaves the state as it found it,
    so the mutation never starts.  Inside [readViewModel] the flag is
    set when the callback starts: if the part of the callback that runs
    before the helper returns with the flag still set, [readViewModel]
    throws the read-only error in the very state that part left.  A
    [draftViewModel] called from the read callback clears the flag only
    while it runs: once it has returned, the flag is set and the helper
    throws again. *)
Theorem mutation_throws_in_read_scope
    (before : ViewType -> M unit) (mutation : M unit) viewModel editor w w1 :
  before view (enterScope viewModel true w) = Returned tt w1 ->
  activeReadyOnlyMode w1 = true ->
  (shouldErrorOnReadOnly;; mutation) w1 = Threw ReadOnlyViolation w1 /\
  readViewModel viewModel
    (fun v => before v;; shouldErrorOnReadOnly;; mutation) editor w
  = Threw ReadOnlyViolation w1 /\
  (forall currentViewModel (callbackFn : ViewType -> M unit) editor' r w2,
     draftViewModel currentViewModel callbackFn editor' w1 = Returned r w2 ->
     (shouldErrorOnReadOnly;; mutation) w2 = Threw ReadOnlyViolation w2).
Proof.
  intros Hbefore Hro.
  assert (forall w', activeReadyOnlyMode w' = true ->
            (shouldErrorOnReadOnly;; mutation) w' = Threw ReadOnlyViolation w') as H.
  { intros w' Hro'. apply bind_threw. by rewrite shouldErrorOnReadOnly_run, Hro'. }
  split_and!.
  - by apply H.
  - unfold readViewModel. rewrite scope_run.
    by erewrite bind_returned by done; rewrite H.
  - intros cur cb ed' r w2 Hrun. apply H.
    apply draftViewModel_inv in Hrun as [_ ->]. done.
Qed.

(** *** The transaction runner *)

(** C3.  Once the snapshot is chosen and the mutation callback has
    returned, [draftViewModel] continues as follows.  If the snapshot
    has dirty nodes: the transform pipeline, then the collector, then
    the scope is closed, then the acceptance check -- each once, in that
    order, each starting in the state the previous one left, and an
    error thrown by a pass ends the call there.  If it has none: the
    scope is closed and the acceptance check follows; no pass runs. *)
Theorem draft_runs_passes_in_order
    currentViewModel callbackFn editor w viewModel w0 w1 (dirty : bool) :
  draftBegin currentViewModel editor w = Returned viewModel w0 ->
  callbackFn view (enterScope viewModel false w0) = Returned tt w1 ->
  hasDirtyNodes viewModel w1 = Returned dirty w1 ->
  draftViewModel currentViewModel callbackFn editor w =
  if dirty then
    (applyTextTransforms viewModel editor;;
     garbageCollectDetachedNodes viewModel;;
     modify (leaveScope w0);;
     draftAccept currentViewModel viewModel editor) w1
  else
    (modify (leaveScope w0);;
     draftAccept currentViewModel viewModel editor) w1.
Proof.
  intros Hbegin Hcb Hdirty.
  rewrite draftViewModel_phases.
  erewrite bind_returned by done.
  unfold mbind at 1. unfold M_bind. rewrite scope_run. unfold draftScope.
  erewrite (bind_returned (callbackFn view)) by done.
  erewrite bind_returned by done.
  destruct dirty.
  - unfold mbind, M_bind, modify.
    destruct (applyTextTransforms _ _ _) as [[] w2|]; [|done].
    by destruct (garbageCollectDetachedNodes _ _) as [[] w3|].
  - done.
Qed.


(** *** Loops *)

Lemma bind_ext {A B} (c : M A) (k1 k2 : A -> M B) w :
  (forall a w1, k1 a w1 = k2 a w1) -> (c ≫= k1) w = (c ≫= k2) w.
Proof. intros H. unfold mbind, M_bind. by destruct (c w). Qed.

Lemma forEach_ext {A} (l : list A) (f g : A -> M unit) w :
  (forall x w1, f x w1 = g x w1) -> forEach l f w = forEach l g w.
Proof.
  intros H. revert w. induction l as [|x l IH]; intros w; [done|]. simpl.
  unfold mbind, M_bind. rewrite H. by destruct (g x w).
Qed.

Lemma for_from_forEach {A} (pre l : list A) (f : A -> M unit) w :
  for_from (length l) (length pre)
    (fun i => match (pre ++ l) !! i with None => mret tt | Some x => f x end) w
  = forEach l f w.
Proof.
  revert pre w. induction l as [|x l IH]; intros pre w; [done|]. simpl.
  rewrite list_lookup_middle by done.
  apply bind_ext. intros _ w1.
  specialize (IH (pre ++ [x]) w1).
  rewrite length_app, <- app_assoc in IH. simpl in IH.
  by rewrite Nat.add_1_r in IH.
Qed.

Lemma for_loop_forEach {A} (l : list A) (f : A -> M unit) w :
  for_loop (length l)
    (fun i => match l !! i with None => mret tt | Some x => f x end) w
  = forEach l f w.
Proof. apply (for_from_forEach [] l f w). Qed.

(** *** The collector *)

Lemma garbageCollectDetachedNodes_run viewModel v ks w :
  viewModels w !! viewModel = Some v ->
  keySets w !! dirtyNodes v = Some ks ->
  garbageCollectDetachedNodes viewModel w = forEach ks (collectVisit (nodeMap v)) w.
Proof.
  intros Hv Hks. unfold garbageCollectDetachedNodes.
  step_deref.
  step_deref.
  apply (for_loop_forEach ks (collectVisit (nodeMap v))).
Qed.

Lemma set_nodeMaps_id nodeMap m w :
  nodeMaps w !! nodeMap = Some m ->
  set_nodeMaps (<[nodeMap := m]> (nodeMaps w)) w = w.
Proof.
  intros H. destruct w. unfold set_nodeMaps. simpl in *. f_equal.
  by apply insert_id.
Qed.

Lemma set_nodeMaps_twice nodeMap m1 m2 w :
  set_nodeMaps (<[nodeMap := m2]>
                  (nodeMaps (set_nodeMaps (<[nodeMap := m1]> (nodeMaps w)) w)))
               (set_nodeMaps (<[nodeMap := m1]> (nodeMaps w)) w)
  = set_nodeMaps (<[nodeMap := m2]> (nodeMaps w)) w.
Proof. unfold set_nodeMaps. simpl. by rewrite insert_insert_eq. Qed.

Lemma collectVisit_run nodeMap m k w :
  nodeMaps w !! nodeMap = Some m ->
  collectVisit nodeMap k w =
  match m !! k with
  | Some node =>
      if isAttached node w then Returned tt w
      else Returned tt (set_nodeMaps (<[nodeMap := delete k m]> (nodeMaps w)) w)
  | None => Returned tt w
  end.
Proof.
  intros Hm. unfold collectVisit, getProperty, deleteProperty, derefNodeMap, deref.
  unfold mbind, M_bind, mret, M_ret, gets, modify. rewrite Hm.
  destruct (m !! k) as [node|]; [|done].
  destruct (isAttached node w); simpl; [done|]. by rewrite Hm.
Qed.

(** Whatever [isAttached] answers, the collector returns and writes
    to nothing but the node map of the snapshot. *)
Lemma collect_loop_frame nodeMap ks w m :
  nodeMaps w !! nodeMap = Some m ->
  exists m',
    forEach ks (collectVisit nodeMap) w
    = Returned tt (set_nodeMaps (<[nodeMap := m']> (nodeMaps w)) w).
Proof.
  revert w m. induction ks as [|k ks IH]; intros w m Hm.
  { exists m. simpl. by rewrite set_nodeMaps_id. }
  simpl. pose proof (collectVisit_run nodeMap m k w Hm) as Hrun.
  destruct (m !! k) as [node|]; [destruct (isAttached node w)|].
  - erewrite bind_returned by done. by apply (IH w m).
  - erewrite bind_returned by done.
    destruct (IH (set_nodeMaps (<[nodeMap := delete k m]> (nodeMaps w)) w)
                 (delete k m)) as [m' Hm'].
    { simpl. by rewrite lookup_insert_eq. }
    exists m'. by rewrite Hm', set_nodeMaps_twice.
  - erewrite bind_returned by done. by apply (IH w m).
Qed.

Lemma collect_ext (f g : nat -> bool) ks (m : gmap string nat) :
  (forall n, f n = g n) -> collect f ks m = collect g ks m.
Proof.
  intros H. revert m. induction ks as [|k ks IH]; intros m; [done|].
  unfold collect in *. simpl. rewrite IH.
  destruct (m !! k); [|done]. by rewrite H.
Qed.

Lemma collect_loop nodeMap ks w m :
  CollectionStable ->
  nodeMaps w !! nodeMap = Some m ->
  forEach ks (collectVisit nodeMap) w
  = Returned tt
      (set_nodeMaps
         (<[nodeMap := collect (fun node => isAttached node w) ks m]> (nodeMaps w)) w).
Proof.
  intros Hstable. revert w m. induction ks as [|k ks IH]; intros w m Hm.
  { simpl. by rewrite set_nodeMaps_id. }
  simpl. pose proof (collectVisit_run nodeMap m k w Hm) as Hrun.
  unfold collect. simpl. fold (collect (fun node => isAttached node w) ks).
  destruct (m !! k) as [node|] eqn:Hk; [destruct (isAttached node w) eqn:Hatt|].
  - erewrite bind_returned by done. by apply IH.
  - erewrite bind_returned by done.
    rewrite (IH _ (delete k m)) by (simpl; by rewrite lookup_insert_eq).
    rewrite set_nodeMaps_twice. do 3 f_equal.
    apply collect_ext. intros n. by apply (Hstable w nodeMap m k node n).
  - erewrite bind_returned by done. by apply IH.
Qed.

Lemma collect_cons (attached : nat -> bool) k ks (m : gmap string nat) :
  collect attached (k :: ks) m =
  collect attached ks
    match m !! k with
    | Some node => if attached node then m else delete k m
    | None => m
    end.
Proof. done. Qed.

Lemma collect_lookup (attached : nat -> bool) ks (m : gmap string nat) k :
  collect attached ks m !! k =
  match m !! k with
  | Some node =>
      if bool_decide (k ∈ ks) && negb (attached node) then None else Some node
  | None => None
  end.
Proof.
  revert m. induction ks as [|k0 ks IH]; intros m.
  { simpl. by destruct (m !! k). }
  rewrite collect_cons, IH.
  destruct (decide (k = k0)) as [->|Hne].
  - rewrite (bool_decide_true (k0 ∈ k0 :: ks)) by apply list_elem_of_here.
    destruct (m !! k0) as [node|] eqn:Hk0; [|by rewrite Hk0].
    destruct (attached node) eqn:Hatt.
    + rewrite Hk0, Hatt. simpl. by rewrite andb_false_r.
    + by rewrite lookup_delete_eq.
  - assert (bool_decide (k ∈ k0 :: ks) = bool_decide (k ∈ ks)) as ->.
    { apply bool_decide_ext. rewrite elem_of_cons.
      split; [intros [E|E]; [by destruct Hne|done]|by right]. }
    destruct (m !! k0) as [node0|]; [|done].
    destruct (attached node0); [done|]. by rewrite lookup_delete_ne.
Qed.

(** C4.  The collector returns and changes nothing but the node map
    [m] of the snapshot, which becomes [m'].  With [ks] the dirty keys
    at the start of the pass: a key of [ks] that resolves in [m] to a
    node that is not attached has no entry in [m']; a key of [ks] that
    resolves to an attached node keeps its entry; a key that is not in
    [ks] has in [m'] exactly what it had in [m]. *)
Theorem collector_removes_detached_dirty viewModel v ks m w :
  CollectionStable ->
  viewModels w !! viewModel = Some v ->
  keySets w !! dirtyNodes v = Some ks ->
  nodeMaps w !! nodeMap v = Some m ->
  exists m',
    garbageCollectDetachedNodes viewModel w
    = Returned tt (set_nodeMaps (<[nodeMap v := m']> (nodeMaps w)) w) /\
    (forall k node, k ∈ ks -> m !! k = Some node ->
                    isAttached node w = false -> m' !! k = None) /\
    (forall k node, k ∈ ks -> m !! k = Some node ->
                    isAttached node w = true -> m' !! k = Some node) /\
    (forall k, k ∉ ks -> m' !! k = m !! k).
Proof.
  intros Hstable Hv Hks Hm.
  exists (collect (fun node => isAttached node w) ks m). split_and!.
  - rewrite (garbageCollectDetachedNodes_run _ v ks) by done.
    by apply collect_loop.
  - intros k node Hin Hk Hatt. rewrite collect_lookup, Hk, Hatt.
    by rewrite bool_decide_true.
  - intros k node Hin Hk Hatt. rewrite collect_lookup, Hk, Hatt.
    by rewrite andb_false_r.
  - intros k Hnin. rewrite collect_lookup.
    rewrite bool_decide_false by done. by destruct (m !! k).
Qed.

(** *** The transform pipeline *)

Lemma transformPass_no_function ks nodeMap m w :
  nodeMaps w !! nodeMap = Some m ->
  transformPass [] ks nodeMap w = Returned tt w.
Proof.
  intros Hm. unfold transformPass.
  induction ks as [|k ks IH]; [done|]. simpl.
  erewrite bind_returned; [exact IH|].
  unfold transformVisit, getProperty, derefNodeMap.
  erewrite bind_returned by (step_deref; done).
  destruct (m !! k) as [node|]; [|done].
  unfold mbind, M_bind, gets. by destruct (isAttached node w && _).
Qed.

(** C6.  The transform pipeline is the pass over two sequences fixed
    when it starts: the dirty keys [ks] of the snapshot and the
    functions [fs] registered with the editor, both in insertion order,
    and the node map object the snapshot then has.  Each key is visited
    once, in the state the earlier visits left; if at that moment it
    resolves in the node map to a node that is attached and is a text
    node, every function of [fs] is applied to that node once, in
    order; otherwise none is.  Neither the dirty set nor the registry
    is read again. *)
Theorem transforms_visit_fixed_sequences viewModel editor v e ks m w :
  viewModels w !! viewModel = Some v ->
  editors w !! editor = Some e ->
  keySets w !! dirtyNodes v = Some ks ->
  nodeMaps w !! nodeMap v = Some m ->
  applyTextTransforms viewModel editor w
  = transformPass (_textTransforms e) ks (nodeMap v) w.
Proof.
  intros Hv He Hks Hm. unfold applyTextTransforms.
  step_deref.
  destruct (_textTransforms e) as [|f fs] eqn:Hfs.
  { simpl. symmetry. by apply (transformPass_no_function ks _ m). }
  rewrite bool_decide_true by (simpl; lia).
  step_deref.
  step_deref.
  rewrite (for_loop_forEach ks (fun nodeKey =>
    node ← getProperty (nodeMap v) nodeKey;
    match node with
    | None => mret tt
    | Some node =>
        attached ← gets (isAttached node);
        if (attached : bool) then
          if instanceofTextNode node then
            for_loop (length (f :: fs)) (fun i =>
              match (f :: fs) !! i with
              | None => mret tt
              | Some g => textTransform g node view
              end)
          else mret tt
        else mret tt
    end)).
  unfold transformPass. apply forEach_ext. intros k w1.
  unfold transformVisit. apply bind_ext. intros [node|] w2; [|done].
  apply bind_ext. intros [] w3; [|done]. simpl andb.
  destruct (instanceofTextNode node); [|done].
  apply (for_loop_forEach (f :: fs) (fun g => textTransform g node view)).
Qed.

(** *** The commit notifier *)

Lemma triggerOnChange_run editor viewModel e w :
  editors w !! editor = Some e ->
  triggerOnChange editor viewModel w
  = forEach (_updateListeners e) (fun f => updateListener f viewModel) w.
Proof.
  intros He. unfold triggerOnChange.
  step_deref.
  apply (for_loop_forEach (_updateListeners e)
           (fun f => updateListener f viewModel)).
Qed.

(** C10.  Let the reconciler return in [w1], and let [w2] be [w1] with
    the ambient snapshot put back to the value it had before the call
    and the editor's current-snapshot slot set to the committed
    snapshot.  Then the listener fan-out of [updateViewModel] starts in
    [w2], where both have already happened, and it is the run over the
    fixed sequence of the listeners registered in [w2], in order, each
    called with the committed snapshot: a listener registered while
    the fan-out runs is not reached. *)
Theorem commit_notifies_fixed_listeners viewModel editor e w w1 :
  reconcileViewModel viewModel editor (set_activeViewModel (Some viewModel) w)
    = Returned tt w1 ->
  editors w1 !! editor = Some e ->
  let w2 :=
    set_editors (<[editor := with_viewModel viewModel e]> (editors w1))
      (set_activeViewModel (activeViewModel w) w1) in
  activeViewModel w2 = activeViewModel w /\
  getCurrentViewModel editor w2 = Returned viewModel w2 /\
  (exists e2, editors w2 !! editor = Some e2 /\
              _updateListeners e2 = _updateListeners e) /\
  updateViewModel viewModel editor w
  = forEach (_updateListeners e) (fun f => updateListener f viewModel) w2.
Proof.
  intros Hrec He w2.
  assert (editors w2 !! editor = Some (with_viewModel viewModel e)) as He2.
  { subst w2. simpl. by rewrite lookup_insert_eq. }
  split_and!.
  - done.
  - unfold getCurrentViewModel.
    by step_deref.
  - by exists (with_viewModel viewModel e).
  - unfold updateViewModel.
    unfold mbind at 1, M_bind at 1, gets at 1.
    unfold mbind at 1, M_bind at 1, modify at 1.
    erewrite bind_returned by done.
    unfold mbind at 1, M_bind at 1, modify at 1.
    erewrite bind_returned; cycle 1.
    { unfold assignEditor.
      step_deref. done. }
    by rewrite (triggerOnChange_run _ _ (with_viewModel viewModel e)).
Qed.

(** *** Nested transactions *)

Lemma draftAccept_returns currentViewModel viewModel editor v ks e c w :
  viewModels w !! viewModel = Some v ->
  keySets w !! dirtyNodes v = Some ks ->
  editors w !! editor = Some e ->
  viewModels w !! _viewModel e = Some c ->
  exists r,
    draftAccept currentViewModel viewModel editor w = Returned r w /\
    (ks ≠ [] -> r = viewModel).
Proof.
  intros Hv Hks He Hc. destruct ks as [|k ks].
  - eexists. split; [by apply (draftAccept_clean _ _ _ v e c)|done].
  - exists viewModel. split; [by apply (draftAccept_dirty _ _ _ v (k :: ks))|done].
Qed.

Lemma draftBegin_nested_run currentViewModel editor a v w :
  activeViewModel w = Some a ->
  viewModels w !! a = Some v ->
  draftBegin currentViewModel editor w
  = Returned a
      (set_viewModels
         (<[a := with_selection (createSelection a editor w) v]> (viewModels w)) w).
Proof.
  intros Ha Hv. unfold draftBegin.
  unfold mbind at 1, M_bind at 1, gets at 1. rewrite Ha.
  rewrite bool_decide_true by done.
  erewrite bind_returned by (by rewrite getActiveViewModel_run, Ha).
  unfold mbind at 1, M_bind at 1, gets at 1.
  erewrite bind_returned; [done|]. unfold assignViewModel.
  by step_deref.
Qed.

(** A call made while a scope is open on [a]: the snapshot worked on
    is [a], refreshed with a new selection, and the current snapshot
    given as argument is not looked at. *)
Lemma draftViewModel_nested_run currentViewModel callbackFn editor a v w :
  activeViewModel w = Some a ->
  viewModels w !! a = Some v ->
  draftViewModel currentViewModel callbackFn editor w =
  match
    draftScope callbackFn a editor view
      (enterScope a false
         (set_viewModels
            (<[a := with_selection (createSelection a editor w) v]> (viewModels w)) w))
  with
  | Returned _ w1 => draftAccept currentViewModel a editor (leaveScope w w1)
  | Threw e w1 => Threw e w1
  end.
Proof.
  intros Ha Hv. rewrite draftViewModel_phases.
  erewrite bind_returned by (by apply (draftBegin_nested_run _ _ a v)).
  unfold mbind, M_bind. rewrite scope_run.
  by destruct (draftScope _ _ _ _ _).
Qed.

Lemma covers_nonempty x l l' : covers x l l' -> l ≠ [] -> l' ≠ [].
Proof.
  destruct l as [|k l]; [done|]. intros H _ ->.
  assert (k ∈ @nil string) as Hin.
  { destruct x; apply H, list_elem_of_here. }
  by apply elem_of_nil in Hin.
Qed.

Lemma for_from_preserves (P : World -> Prop) count i (body : nat -> M unit) w :
  (forall j w', P w' -> exists w1, body j w' = Returned tt w1 /\ P w1) ->
  P w ->
  exists w1, for_from count i body w = Returned tt w1 /\ P w1.
Proof.
  intros Hbody. revert i w. induction count as [|count IH]; intros i w HP.
  { by exists w. }
  destruct (Hbody i w HP) as (w1 & Hrun & HP1).
  destruct (IH (S i) w1 HP1) as (w2 & Hrest & HP2).
  exists w2. split; [|done]. simpl. by erewrite bind_returned by done.
Qed.

Section Accumulation.

Context (x : Extent) (editor : EditorRef).
(** No text transform takes a marked key out of the dirty set; with
    [Exactly], none adds a key either. *)
Hypothesis transforms_keep :
  forall f node, Dirties x editor (textTransform f node view) [].

Lemma transforms_in_transaction a dn nm D l w :
  InTransaction x editor a dn nm D l w ->
  exists w1, applyTextTransforms a editor w = Returned tt w1 /\
             InTransaction x editor a dn nm D l w1.
Proof using transforms_keep.
  intros Htx.
  pose proof Htx as (Ha & Hro & Hdom & (v & Hv & Hdn & Hnm) & Hmap
                     & (l' & Hl & Hcov) & (e & He & Hcur)).
  unfold applyTextTransforms. step_deref.
  case_bool_decide; [|by exists w].
  step_deref. rewrite Hdn, Hnm. step_deref.
  apply for_from_preserves; [|done].
  intros j w' Htx'.
  destruct (l' !! j) as [nodeKey|]; [|by exists w'].
  pose proof Htx' as (_ & _ & _ & _ & [m' Hm'] & _).
  unfold getProperty, derefNodeMap.
  erewrite bind_returned by (by step_deref).
  destruct (m' !! nodeKey) as [node|]; [|by exists w'].
  unfold mbind at 1, M_bind at 1, gets at 1.
  destruct (isAttached node w'); [|by exists w'].
  destruct (instanceofTextNode node); [|by exists w'].
  apply for_from_preserves; [|done].
  intros i w'' Htx''.
  destruct (_textTransforms e !! i) as [f|]; [|by exists w''].
  destruct (transforms_keep f node _ _ _ _ _ _ Htx'') as (w1 & Hrun & Htx1).
  rewrite app_nil_r in Htx1. by exists w1.
Qed.

Lemma collector_in_transaction a dn nm D l w :
  InTransaction x editor a dn nm D l w ->
  exists w1, garbageCollectDetachedNodes a w = Returned tt w1 /\
             InTransaction x editor a dn nm D l w1.
Proof.
  intros (Ha & Hro & Hdom & (v & Hv & Hdn & Hnm) & [m Hmap]
          & (l' & Hl & Hcov) & He).
  rewrite <- Hdn in Hl. rewrite <- Hnm in Hmap.
  rewrite (garbageCollectDetachedNodes_run _ v l') by done.
  destruct (collect_loop_frame (nodeMap v) l' w m Hmap) as [m' ->].
  eexists. split; [done|].
  unfold InTransaction. simpl. rewrite <- Hnm, <- Hdn, lookup_insert_eq.
  split_and!; try done; eauto.
Qed.

Lemma passes_in_transaction a dn nm D l w :
  InTransaction x editor a dn nm D l w ->
  exists w1,
    (dirty ← hasDirtyNodes a;
     if (dirty : bool) then
       applyTextTransforms a editor;;
       garbageCollectDetachedNodes a
     else mret tt) w = Returned tt w1 /\
    InTransaction x editor a dn nm D l w1.
Proof using transforms_keep.
  intros Htx.
  pose proof Htx as (_ & _ & _ & (v & Hv & Hdn & _) & _ & (l' & Hl & _) & _).
  rewrite <- Hdn in Hl.
  erewrite bind_returned by (by eapply hasDirtyNodes_run).
  case_bool_decide; [|by exists w].
  destruct (transforms_in_transaction _ _ _ _ _ _ Htx) as (w1 & Hrun1 & Htx1).
  destruct (collector_in_transaction _ _ _ _ _ _ Htx1) as (w2 & Hrun2 & Htx2).
  exists w2. split; [|done]. by erewrite bind_returned by done.
Qed.

Lemma nested_draft_in_transaction
    (inner : ViewType -> M unit) other ks a dn nm D l w :
  Dirties x editor (inner view) ks ->
  InTransaction x editor a dn nm D l w ->
  exists r w1,
    draftViewModel other inner editor w = Returned r w1 /\
    InTransaction x editor a dn nm D (l ++ ks) w1.
Proof using transforms_keep.
  intros Hinner Htx.
  pose proof Htx as (Ha & Hro & Hdom & (v & Hv & Hdn & Hnm) & Hmap
                     & Hl & (e & He & Hcur)).
  set (w0 := set_viewModels
               (<[a := with_selection (createSelection a editor w) v]>
                  (viewModels w)) w).
  assert (InTransaction x editor a dn nm D l (enterScope a false w0)) as Htx0.
  { unfold InTransaction. simpl. rewrite lookup_insert_eq.
    split_and!; try done.
    - rewrite <- Hdom. apply dom_insert_lookup_L. eauto.
    - by exists (with_selection (createSelection a editor w) v).
    - exists e. split; [done|]. apply lookup_insert_is_Some'. by right. }
  destruct (Hinner _ _ _ _ _ _ Htx0) as (w1 & Hcb & Htx1).
  destruct (passes_in_transaction _ _ _ _ _ _ Htx1) as (w2 & Hpasses & Htx2).
  assert (InTransaction x editor a dn nm D (l ++ ks) (leaveScope w w2)) as Htx3.
  { destruct Htx2 as (_ & _ & H2). unfold InTransaction. simpl. tauto. }
  pose proof Htx3 as (_ & _ & _ & (v3 & Hv3 & Hdn3 & _) & _ & (l3 & Hl3 & _)
                      & (e3 & He3 & [c3 Hc3])).
  rewrite <- Hdn3 in Hl3.
  destruct (draftAccept_returns other a editor v3 l3 e3 c3
              (leaveScope w w2) Hv3 Hl3 He3 Hc3) as (r & Haccept & _).
  exists r, (leaveScope w w2). split; [|done].
  rewrite (draftViewModel_nested_run _ _ _ a v) by done. fold w0.
  unfold draftScope. erewrite bind_returned by done.
  by rewrite Hpasses.
Qed.

Lemma outer_draft_in_transaction
    (before inner after : ViewType -> M unit)
    currentViewModel other c m e ks1 ks2 ks3 w :
  Dirties x editor (before view) ks1 ->
  Dirties x editor (inner view) ks2 ->
  Dirties x editor (after view) ks3 ->
  activeViewModel w = None ->
  viewModels w !! currentViewModel = Some c ->
  nodeMaps w !! nodeMap c = Some m ->
  editors w !! editor = Some e ->
  is_Some (viewModels w !! _viewModel e) ->
  ks1 ++ ks2 ++ ks3 ≠ [] ->
  exists r v ds w1,
    draftViewModel currentViewModel
      (fun v => before v;; draftViewModel other inner editor;; after v)
      editor w = Returned r w1 /\
    viewModels w !! r = None /\
    dom (viewModels w1) = {[r]} ∪ dom (viewModels w) /\
    viewModels w1 !! r = Some v /\
    keySets w1 !! dirtyNodes v = Some ds /\
    covers x (ks1 ++ ks2 ++ ks3) ds.
Proof using transforms_keep.
  intros Hbefore Hinner Hafter Ha Hc Hm He Hcur Hne.
  pose proof (cloneViewModel_run _ c m w Hc Hm) as Hclone. simpl in Hclone.
  set (empty := fresh (dom (nodeMaps w))) in *.
  set (copy := fresh (dom (<[empty := ∅]> (nodeMaps w)))) in *.
  set (dn := fresh (dom (keySets w))) in *.
  set (draft := fresh (dom (viewModels w))) in *.
  match type of Hclone with
  | context [ <[draft := ?d0]> _ ] => set (d := d0) in *
  end.
  match type of Hclone with _ = Returned _ ?w' => set (wc := w') in * end.
  set (w0 := set_viewModels
               (<[draft := with_selection (createSelection draft editor wc) d]>
                  (viewModels wc)) wc).
  assert (draftBegin currentViewModel editor w = Returned draft w0) as Hbegin.
  { unfold draftBegin.
    unfold mbind at 1, M_bind at 1, gets at 1. rewrite Ha.
    rewrite bool_decide_false by (by intros []).
    erewrite bind_returned by done.
    unfold mbind at 1, M_bind at 1, gets at 1.
    erewrite bind_returned; [done|]. unfold assignViewModel.
    erewrite bind_returned; [done|]. apply deref_some.
    subst wc. simpl. by rewrite lookup_insert_eq. }
  set (D := {[draft]} ∪ dom (viewModels w)).
  assert (InTransaction x editor draft dn copy D [] (enterScope draft false w0))
    as Htx0.
  { unfold InTransaction. subst w0 wc d. simpl.
    rewrite !lookup_insert_eq. split_and!; try done.
    - by rewrite insert_insert_eq, dom_insert_L.
    - by eexists.
    - exists []. split; [|by destruct x].
      rewrite lookup_insert_ne; [by rewrite lookup_insert_eq|].
      intros E. pose proof (fresh_lookup (<[dn := []]> (keySets w))) as F.
      by rewrite E, lookup_insert_eq in F.
    - exists e. split; [done|].
      apply lookup_insert_is_Some'. right.
      apply lookup_insert_is_Some'. by right. }
  destruct (Hbefore _ _ _ _ _ _ Htx0) as (w1 & Hcb1 & Htx1).
  destruct (nested_draft_in_transaction inner other ks2 _ _ _ _ _ _ Hinner Htx1)
    as (r2 & w2 & Hnested & Htx2).
  destruct (Hafter _ _ _ _ _ _ Htx2) as (w3 & Hcb3 & Htx3).
  destruct (passes_in_transaction _ _ _ _ _ _ Htx3) as (w4 & Hpasses & Htx4).
  destruct Htx4 as (_ & _ & Hdom4 & (v4 & Hv4 & Hdn4 & _) & _ & (ds & Hds & Hcov) & _).
  rewrite <- Hdn4 in Hds. simpl in Hcov. rewrite <- app_assoc in Hcov.
  exists draft, v4, ds, (leaveScope w0 w4).
  split_and!; try done.
  - rewrite draftViewModel_phases.
    erewrite bind_returned by done.
    erewrite bind_returned; cycle 1.
    { rewrite scope_run. unfold draftScope.
      erewrite (bind_returned (_ ;; _)); cycle 1.
      { erewrite bind_returned by done.
        by erewrite bind_returned by done. }
      by rewrite Hpasses. }
    apply (draftAccept_dirty _ _ _ v4 ds); try done.
    by apply (covers_nonempty x (ks1 ++ ks2 ++ ks3)).
  - apply fresh_lookup.
Qed.

End Accumulation.


(** Marking keys with the helper dirties exactly those keys. *)
Lemma markNodeAsDirty_dirties x editor k :
  Dirties (Ext := Ext) x editor (markNodeAsDirty k) [k].
Proof.
  intros a dn nm D l w (Ha & Hro & Hdom & (v & Hv & Hdn & Hnm) & Hmap
                        & (l' & Hl & Hcov) & He).
  eexists. split.
  - unfold markNodeAsDirty.
    erewrite bind_returned by (by rewrite shouldErrorOnReadOnly_run, Hro).
    erewrite bind_returned by (by rewrite getActiveViewModel_run, Ha).
    step_deref. unfold setAdd. rewrite Hdn. step_deref. done.
  - unfold InTransaction. simpl. rewrite lookup_insert_eq.
    split_and!; try done; [by exists v|].
    eexists. split; [done|].
    destruct x; simpl in *; intros k0; case_bool_decide as Hin;
      rewrite ?elem_of_app, ?list_elem_of_singleton.
    + rewrite Hcov. split; [tauto|]. intros [? | ->]; [done|]. by apply Hcov.
    + rewrite Hcov. tauto.
    + intros [? | ->]; [by apply Hcov|done].
    + intros [? | ->]; [left; by apply Hcov|by right].
Qed.

Lemma forEach_markNodeAsDirty_dirties x editor ks :
  Dirties (Ext := Ext) x editor (forEach ks markNodeAsDirty) ks.
Proof.
  induction ks as [|k ks IH]; intros a dn nm D l w Htx.
  { exists w. split; [done|]. by rewrite app_nil_r. }
  destruct (markNodeAsDirty_dirties x editor k _ _ _ _ _ _ Htx) as (w1 & Hk & Htx1).
  destruct (IH _ _ _ _ _ _ Htx1) as (w2 & Hks & Htx2).
  exists w2. split.
  - simpl. by erewrite bind_returned by done.
  - by rewrite <- app_assoc in Htx2.
Qed.

End Properties.


(** ** The theorems at work on the concrete host *)

Lemma loggingHost_stable : CollectionStable (host := loggingHost).
Proof. intros w nodeMap m k node node' _ _ _. reflexivity. Qed.

Lemma helpers_throw_outside_scope_witness :
  activeViewModel idleWorld = None /\
  getActiveViewModel idleWorld = Threw NoActiveScope idleWorld /\
  getRoot view idleWorld = Threw NoActiveScope idleWorld.
Proof.
  pose proof (helpers_throw_outside_scope idleWorld eq_refl) as (H1 & H2 & _).
  split; [reflexivity|]. split; [exact H1|exact H2].
Defined.

Lemma mutation_throws_in_read_scope_witness :
  idleCallback view (enterScope 0 true idleWorld)
    = Returned tt (enterScope 0 true idleWorld) /\
  activeReadyOnlyMode (enterScope 0 true idleWorld) = true /\
  readViewModel 0
    (fun v => idleCallback v;; shouldErrorOnReadOnly;; markNodeAsDirty "a")
    0 idleWorld
  = Threw ReadOnlyViolation (enterScope 0 true idleWorld).
Proof.
  split; [reflexivity|]. split; [reflexivity|].
  apply (mutation_throws_in_read_scope idleCallback (markNodeAsDirty "a")
           0 0 idleWorld (enterScope 0 true idleWorld)); reflexivity.
Defined.

Lemma cloneViewModel_fork_witness :
  viewModels idleWorld !! 0
    = Some (mkViewModel 0 0 (Some (mkSelection false 7)) 0 1 false) /\
  nodeMaps idleWorld !! 0 = Some documentNodes /\
  exists draft d w1,
    cloneViewModel 0 idleWorld = Returned draft w1 /\
    viewModels idleWorld !! draft = None /\
    viewModels w1 !! draft = Some d /\
    root d = 0 /\ selection d = None /\
    nodeMaps w1 !! nodeMap d = Some documentNodes /\
    nodeMap d ≠ 0 /\
    keySets w1 !! dirtyNodes d = Some [] /\
    keySets w1 !! dirtySubTrees d = Some [].
Proof.
  split; [reflexivity|]. split; [reflexivity|].
  destruct (cloneViewModel_fork 0
              (mkViewModel 0 0 (Some (mkSelection false 7)) 0 1 false)
              documentNodes idleWorld eq_refl eq_refl)
    as (draft & d & w1 & Hrun & Hnew & Hvms & Hroot & Hsel & _ & _ & Hmap & Hne
        & _ & _ & _ & _ & _ & _ & Hdn & Hds & _).
  exists draft, d, w1. rewrite Hvms, lookup_insert_eq. repeat split; assumption.
Defined.

Lemma collector_removes_detached_dirty_witness :
  CollectionStable (host := loggingHost) /\
  viewModels idleWorld !! 1 = Some (mkViewModel 0 1 None 2 3 false) /\
  keySets idleWorld !! 2 = Some ["a"; "b"; "root"; "gone"] /\
  nodeMaps idleWorld !! 1 = Some documentNodes /\
  exists m',
    garbageCollectDetachedNodes 1 idleWorld
    = Returned tt (set_nodeMaps (<[1 := m']> (nodeMaps idleWorld)) idleWorld) /\
    m' !! "b" = None /\ m' !! "a" = Some 1 /\ m' !! "c" = Some 3.
Proof.
  split; [exact loggingHost_stable|]. do 3 (split; [reflexivity|]).
  destruct (collector_removes_detached_dirty 1 (mkViewModel 0 1 None 2 3 false)
              ["a"; "b"; "root"; "gone"] documentNodes idleWorld
              loggingHost_stable eq_refl eq_refl eq_refl)
    as (m' & Hrun & Hdetached & Hattached & Hclean).
  exists m'. split; [exact Hrun|]. split; [|split].
  - apply (Hdetached "b" 2); [|reflexivity|reflexivity].
    apply list_elem_of_In. simpl. tauto.
  - apply (Hattached "a" 1); [|reflexivity|reflexivity].
    apply list_elem_of_In. simpl. tauto.
  - rewrite (Hclean "c"); [reflexivity|].
    intros H. apply list_elem_of_In in H. simpl in H.
    destruct H as [H|[H|[H|[H|[]]]]]; discriminate H.
Defined.

Lemma transforms_visit_fixed_sequences_witness :
  viewModels idleWorld !! 1 = Some (mkViewModel 0 1 None 2 3 false) /\
  editors idleWorld !! 0 = Some (mkEditor 0 [10; 11] [20; 21]) /\
  keySets idleWorld !! 2 = Some ["a"; "b"; "root"; "gone"] /\
  nodeMaps idleWorld !! 1 = Some documentNodes /\
  applyTextTransforms 1 0 idleWorld
  = transformPass [10; 11] ["a"; "b"; "root"; "gone"] 1 idleWorld /\
  calls (ext (world_of (applyTextTransforms 1 0 idleWorld))) = [(10, 1); (11, 1)].
Proof.
  do 4 (split; [reflexivity|]). split; [|reflexivity].
  apply (transforms_visit_fixed_sequences 1 0 (mkViewModel 0 1 None 2 3 false)
           (mkEditor 0 [10; 11] [20; 21]) ["a"; "b"; "root"; "gone"]
           documentNodes idleWorld); reflexivity.
Defined.

Lemma commit_notifies_fixed_listeners_witness :
  reconcileViewModel 1 0 (set_activeViewModel (Some 1) idleWorld)
    = Returned tt (set_activeViewModel (Some 1) idleWorld) /\
  editors (set_activeViewModel (Some 1) idleWorld) !! 0
    = Some (mkEditor 0 [10; 11] [20; 21]) /\
  updateViewModel 1 0 idleWorld
  = forEach [20; 21] (fun f => updateListener f 1)
      (set_editors (<[0 := mkEditor 1 [10; 11] [20; 21]]> (editors idleWorld))
         idleWorld) /\
  calls (ext (world_of (updateViewModel 1 0 idleWorld))) = [(20, 1); (21, 1)].
Proof.
  do 2 (split; [reflexivity|]). split; [|reflexivity].
  apply (commit_notifies_fixed_listeners 1 0 (mkEditor 0 [10; 11] [20; 21])
           idleWorld (set_activeViewModel (Some 1) idleWorld));
    reflexivity.
Defined.

Lemma draft_runs_passes_in_order_witness :
  draftBegin 0 0 idleWorld = Returned 2 forkedWorld /\
  editingCallback view (enterScope 2 false forkedWorld) = Returned tt editedWorld /\
  hasDirtyNodes 2 editedWorld = Returned true editedWorld /\
  draftViewModel 0 editingCallback 0 idleWorld
  = (applyTextTransforms 2 0;;
     garbageCollectDetachedNodes 2;;
     modify (leaveScope forkedWorld);;
     draftAccept 0 2 0) editedWorld.
Proof.
  assert (draftBegin 0 0 idleWorld = Returned 2 forkedWorld) as H1
    by (vm_compute; reflexivity).
  assert (editingCallback view (enterScope 2 false forkedWorld)
          = Returned tt editedWorld) as H2 by (vm_compute; reflexivity).
  assert (hasDirtyNodes 2 editedWorld = Returned true editedWorld) as H3
    by (vm_compute; reflexivity).
  do 3 (split; [assumption|]).
  exact (draft_runs_passes_in_order 0 editingCallback 0 idleWorld 2
           forkedWorld editedWorld true H1 H2 H3).
Defined.


Lemma logCall_dirties x editor f n :
  Dirties (Ext := HostState) x editor (logCall f n) [].
Proof.
  intros a dn nm D l w Htx. eexists. split; [reflexivity|].
  rewrite app_nil_r. exact Htx.
Qed.


(** Transforms that dirty an attached text node and register a
    transform while the pass runs: the pass still makes the same two
    calls, although afterwards "c" is in the dirty set, node 3 is
    attached and transform 12 is registered. *)
Example transforms_ignore_interference :
  let w1 := world_of (applyTextTransforms (host := interferingHost) 1 0 idleWorld) in
  calls (ext w1) = [(10, 1); (11, 1)] /\
  keySets w1 !! 2 = Some ["a"; "b"; "root"; "gone"; "c"] /\
  attachedNodes (ext w1) = [3; 3; 0; 1] /\
  _textTransforms <$> editors w1 !! 0 = Some [10; 11; 12; 12].
Proof. vm_compute. repeat split. Qed.

(** ** Where the code departs from the claims *)

(** C1, as stated, fails.  A read scope on snapshot 0 is opened from
    the idle state and its callback throws: the error leaves the scope
    with snapshot 0 still the active one and the read-only flag still
    set, where before the call there was no active snapshot and the
    flag was clear.  [readViewModel] is the exported way to that call,
    and [getActiveViewModel], called after it has failed, returns
    snapshot 0. *)
Lemma scope_not_restored_on_throw :
  callCallbackWithViewModelScope throwingCallback 0 0 true idleWorld
    = Threw (JsOther 0) (enterScope 0 true idleWorld) /\
  activeViewModel idleWorld = None /\
  activeViewModel
    (world_of (callCallbackWithViewModelScope throwingCallback 0 0 true idleWorld))
    = Some 0 /\
  activeReadyOnlyMode idleWorld = false /\
  activeReadyOnlyMode
    (world_of (callCallbackWithViewModelScope throwingCallback 0 0 true idleWorld))
    = true /\
  readViewModel 0 throwingCallback 0 idleWorld
    = Threw (JsOther 0) (enterScope 0 true idleWorld) /\
  getActiveViewModel (enterScope 0 true idleWorld)
    = Returned 0 (enterScope 0 true idleWorld).
Proof. repeat split. Qed.



(** C7, as stated, fails.  From the idle state a [readViewModel] whose
    callback throws is left by the error with its scope still open.
    Control is then outside every [draftViewModel] and [readViewModel]
    callback, yet [getActiveViewModel] returns snapshot 0 and
    [view.getRoot] returns its root. *)
Lemma helper_returns_after_failed_scope :
  activeViewModel idleWorld = None /\
  readViewModel 0 throwingCallback 0 idleWorld
    = Threw (JsOther 0) (enterScope 0 true idleWorld) /\
  getActiveViewModel (enterScope 0 true idleWorld)
    = Returned 0 (enterScope 0 true idleWorld) /\
  getRoot view (enterScope 0 true idleWorld)
    = Returned 0 (enterScope 0 true idleWorld).
Proof. repeat split. Qed.

(** C8, as stated, fails.  The read callback on snapshot 0 calls
    [draftViewModel], whose callback calls a mutation helper marking
    "a" dirty.  Called directly in the read scope the helper throws;
    reached through the nested call it returns, the read returns, and
    "a" is in the dirty set of the snapshot that was being read. *)
Lemma nested_draft_mutates_in_read_scope :
  let o := readViewModel 0 nestedEditCallback 0 idleWorld in
  markNodeAsDirty "a" (enterScope 0 true idleWorld)
    = Threw ReadOnlyViolation (enterScope 0 true idleWorld) /\
  o = Returned tt (world_of o) /\
  dirtyNodes <$> viewModels idleWorld !! 0 = Some 0 /\
  keySets idleWorld !! 0 = Some [] /\
  dirtyNodes <$> viewModels (world_of o) !! 0 = Some 0 /\
  keySets (world_of o) !! 0 = Some ["a"] /\
  dom (viewModels (world_of o)) = dom (viewModels idleWorld).
Proof. vm_compute. repeat split. Qed.

(** ** Further properties of the module *)

Section Further.

Context {Ext : Type} {host : @Collaborators Ext}.

Implicit Types (w : @World Ext).

Ltac step_deref := erewrite bind_returned by (by apply deref_some).

(** *** Reading the dirty nodes *)

Lemma getDirtyNodes_loop nodeMap (m : gmap string nat) (pre l : list string)
    (acc : list nat) w :
  nodeMaps w !! nodeMap = Some m ->
  for_from_with (length l) (length pre)
    (fun i nodes =>
       match (pre ++ l) !! i with
       | None => mret nodes
       | Some dirtyNodeKey =>
           dirtyNode ← getProperty nodeMap dirtyNodeKey;
           match dirtyNode with
           | None => mret nodes
           | Some dirtyNode => mret (nodes ++ [dirtyNode])
           end
       end) acc w
  = Returned (acc ++ omap (fun k => m !! k) l) w.
Proof.
  intros Hm. revert pre acc. induction l as [|k l IH]; intros pre acc.
  { simpl. by rewrite app_nil_r. }
  simpl. rewrite list_lookup_middle by done.
  assert (getProperty nodeMap k w = Returned (m !! k) w) as Hget.
  { unfold getProperty, derefNodeMap. by step_deref. }
  specialize (IH (pre ++ [k])).
  rewrite length_app, <- app_assoc, Nat.add_1_r in IH. simpl in IH.
  unfold mbind, M_bind, mret, M_ret in *. rewrite Hget.
  destruct (m !! k) as [node|]; rewrite IH; [|done].
  by rewrite <- app_assoc.
Qed.

Lemma getDirtyNodes_run this v ks (m : gmap string nat) w :
  viewModels w !! this = Some v ->
  keySets w !! dirtyNodes v = Some ks ->
  nodeMaps w !! nodeMap v = Some m ->
  getDirtyNodes this w = Returned (omap (fun k => m !! k) ks) w.
Proof.
  intros Hv Hks Hm. unfold getDirtyNodes. step_deref. step_deref.
  apply (getDirtyNodes_loop (nodeMap v) m [] ks [] w Hm).
Qed.

(** X1.  [getDirtyNodes] returns, in the order of the dirty set, the
    nodes that the dirty keys resolve to in the node map, leaving out
    the keys that have no entry, and changes nothing: a node is
    returned exactly when some dirty key maps to it, and there are
    never more nodes than dirty keys. *)
Theorem getDirtyNodes_resolves this v ks (m : gmap string nat) w :
  viewModels w !! this = Some v ->
  keySets w !! dirtyNodes v = Some ks ->
  nodeMaps w !! nodeMap v = Some m ->
  getDirtyNodes this w = Returned (omap (fun k => m !! k) ks) w /\
  (forall node, node ∈ omap (fun k => m !! k) ks <->
                exists k, k ∈ ks /\ m !! k = Some node) /\
  length (omap (fun k => m !! k) ks) <= length ks.
Proof.
  intros Hv Hks Hm. split_and!.
  - by apply (getDirtyNodes_run this v).
  - intros node. apply list_elem_of_omap.
  - clear. induction ks as [|k ks IH]; [done|]. simpl.
    unfold omap in IH. destruct (m !! k); simpl; lia.
Qed.

(** *** More on the collector *)

Lemma collect_loop_shrinks nodeMap ks w (m : gmap string nat) :
  nodeMaps w !! nodeMap = Some m ->
  exists m',
    forEach ks (collectVisit nodeMap) w
    = Returned tt (set_nodeMaps (<[nodeMap := m']> (nodeMaps w)) w) /\
    m' ⊆ m /\
    (forall k, k ∉ ks -> m' !! k = m !! k).
Proof.
  revert w m. induction ks as [|k ks IH]; intros w m Hm.
  { exists m. simpl. by rewrite set_nodeMaps_id. }
  simpl. pose proof (collectVisit_run nodeMap m k w Hm) as Hrun.
  assert (forall m0 : gmap string nat,
            (exists m', forEach ks (collectVisit nodeMap) w
                        = Returned tt (set_nodeMaps (<[nodeMap := m']> (nodeMaps w)) w) /\
                        m' ⊆ m0 /\ (forall k', k' ∉ ks -> m' !! k' = m0 !! k')) ->
            m0 = m ->
            exists m', forEach ks (collectVisit nodeMap) w
                       = Returned tt (set_nodeMaps (<[nodeMap := m']> (nodeMaps w)) w) /\
                       m' ⊆ m /\ (forall k', k' ∉ k :: ks -> m' !! k' = m !! k')) as Hkeep.
  { intros m0 (m' & H1 & H2 & H3) ->. exists m'. split_and!; [done|done|].
    intros k' Hk'. apply H3. intros Hin. apply Hk'. by right. }
  destruct (m !! k) as [node|]; [destruct (isAttached node w)|].
  - erewrite bind_returned by done. by apply (Hkeep m); [apply IH|].
  - erewrite bind_returned by done.
    destruct (IH (set_nodeMaps (<[nodeMap := delete k m]> (nodeMaps w)) w)
                 (delete k m)) as (m' & Hm' & Hsub & Hout).
    { simpl. by rewrite lookup_insert_eq. }
    exists m'. rewrite Hm', set_nodeMaps_twice. split_and!; [done| |].
    + etrans; [exact Hsub|]. apply delete_subseteq.
    + intros k' Hk'. rewrite Hout by (intros Hin; apply Hk'; by right).
      apply lookup_delete_ne. intros ->. apply Hk'. by left.
  - erewrite bind_returned by done. by apply (Hkeep m); [apply IH|].
Qed.

(** X3.  Whatever [isAttached] answers, the collector returns and
    writes to one object only, the node map of the snapshot.  That map
    can only lose entries, and only under dirty keys; every other node
    map, every snapshot, every set, the editors, the outside world and
    the two ambient variables are as before. *)
Theorem collector_only_shrinks_own_map viewModel v ks (m : gmap string nat) w :
  viewModels w !! viewModel = Some v ->
  keySets w !! dirtyNodes v = Some ks ->
  nodeMaps w !! nodeMap v = Some m ->
  exists m' w1,
    garbageCollectDetachedNodes viewModel w = Returned tt w1 /\
    nodeMaps w1 !! nodeMap v = Some m' /\
    m' ⊆ m /\
    (forall k, k ∉ ks -> m' !! k = m !! k) /\
    (forall r, r ≠ nodeMap v -> nodeMaps w1 !! r = nodeMaps w !! r) /\
    viewModels w1 = viewModels w /\ keySets w1 = keySets w /\
    editors w1 = editors w /\ ext w1 = ext w /\
    activeViewModel w1 = activeViewModel w /\
    activeReadyOnlyMode w1 = activeReadyOnlyMode w.
Proof.
  intros Hv Hks Hm.
  destruct (collect_loop_shrinks (nodeMap v) ks w m Hm) as (m' & Hrun & Hsub & Hout).
  exists m', (set_nodeMaps (<[nodeMap v := m']> (nodeMaps w)) w).
  split_and!; try done.
  - by rewrite (garbageCollectDetachedNodes_run _ v ks).
  - simpl. by rewrite lookup_insert_eq.
  - intros r Hr. simpl. by rewrite lookup_insert_ne.
Qed.

Lemma collect_attached_stable nodeMap ks w (m : gmap string nat) node :
  CollectionStable ->
  nodeMaps w !! nodeMap = Some m ->
  isAttached node
    (set_nodeMaps
       (<[nodeMap := collect (fun n => isAttached n w) ks m]> (nodeMaps w)) w)
  = isAttached node w.
Proof.
  intros Hstable. revert w m. induction ks as [|k ks IH]; intros w m Hm.
  { simpl. by rewrite set_nodeMaps_id. }
  rewrite collect_cons.
  destruct (m !! k) as [n|] eqn:Hk; [destruct (isAttached n w) eqn:Hatt|].
  - by apply IH.
  - set (w' := set_nodeMaps (<[nodeMap := delete k m]> (nodeMaps w)) w).
    assert (forall n', isAttached n' w' = isAttached n' w) as Hsame.
    { intros n'. by apply (Hstable w nodeMap m k n n'). }
    rewrite <- (Hsame node).
    rewrite <- (IH w' (delete k m)) by (simpl; by rewrite lookup_insert_eq).
    subst w'. rewrite set_nodeMaps_twice. do 3 f_equal.
    apply collect_ext. intros n'. symmetry. apply Hsame.
  - by apply IH.
Qed.

Lemma collect_idempotent (attached : nat -> bool) ks (m : gmap string nat) :
  collect attached ks (collect attached ks m) = collect attached ks m.
Proof.
  apply map_eq. intros k. rewrite !collect_lookup.
  destruct (m !! k) as [node|]; [|done].
  destruct (bool_decide (k ∈ ks) && negb (attached node)) eqn:E; [done|].
  by rewrite E.
Qed.

(** X4.  Collecting twice is collecting once: a second run of the
    collector right after the first changes nothing. *)
Theorem collector_idempotent viewModel v ks (m : gmap string nat) w :
  CollectionStable ->
  viewModels w !! viewModel = Some v ->
  keySets w !! dirtyNodes v = Some ks ->
  nodeMaps w !! nodeMap v = Some m ->
  (garbageCollectDetachedNodes viewModel;;
   garbageCollectDetachedNodes viewModel) w
  = garbageCollectDetachedNodes viewModel w.
Proof.
  intros Hstable Hv Hks Hm.
  rewrite (garbageCollectDetachedNodes_run _ v ks w) by done.
  rewrite (collect_loop _ _ _ m) by done.
  set (m1 := collect (fun node => isAttached node w) ks m).
  set (w1 := set_nodeMaps (<[nodeMap v := m1]> (nodeMaps w)) w).
  erewrite bind_returned; cycle 1.
  { rewrite (garbageCollectDetachedNodes_run _ v ks w) by done.
    by apply collect_loop. }
  fold m1 w1.
  rewrite (garbageCollectDetachedNodes_run _ v ks w1) by done.
  rewrite (collect_loop _ _ _ m1) by (done || (simpl; by rewrite lookup_insert_eq)).
  subst w1. rewrite set_nodeMaps_twice. do 3 f_equal.
  rewrite (collect_ext _ (fun node => isAttached node w)).
  - apply collect_idempotent.
  - intros n. by apply collect_attached_stable.
Qed.

Lemma omap_collect (attached : nat -> bool) ks (m : gmap string nat) (l : list string) :
  (forall k, k ∈ l -> k ∈ ks) ->
  omap (fun k => collect attached ks m !! k) l
  = List.filter attached (omap (fun k => m !! k) l).
Proof.
  unfold omap. induction l as [|k l IH]; intros Hin; [done|]. simpl.
  rewrite IH by (intros k' Hk'; apply Hin; by right).
  rewrite collect_lookup.
  rewrite (bool_decide_true (k ∈ ks)) by (apply Hin; by left).
  destruct (m !! k) as [node|]; [|done]. simpl.
  by destruct (attached node).
Qed.

(** X2.  After the collector has run, [getDirtyNodes] returns the
    dirty nodes it would have returned before, without those that are
    not attached; every node it returns is attached. *)
Theorem getDirtyNodes_after_collector viewModel v ks (m : gmap string nat) w :
  CollectionStable ->
  viewModels w !! viewModel = Some v ->
  keySets w !! dirtyNodes v = Some ks ->
  nodeMaps w !! nodeMap v = Some m ->
  exists w1,
    garbageCollectDetachedNodes viewModel w = Returned tt w1 /\
    getDirtyNodes viewModel w1
    = Returned (List.filter (fun node => isAttached node w)
                  (omap (fun k => m !! k) ks)) w1 /\
    (forall nodes w2, getDirtyNodes viewModel w1 = Returned nodes w2 ->
       forall node, node ∈ nodes -> isAttached node w1 = true).
Proof.
  intros Hstable Hv Hks Hm.
  set (m1 := collect (fun node => isAttached node w) ks m).
  set (w1 := set_nodeMaps (<[nodeMap v := m1]> (nodeMaps w)) w).
  assert (getDirtyNodes viewModel w1
          = Returned (List.filter (fun node => isAttached node w)
                        (omap (fun k => m !! k) ks)) w1) as Hget.
  { rewrite (getDirtyNodes_run viewModel v ks m1 w1);
      [|done|done|simpl; by rewrite lookup_insert_eq].
    f_equal. by apply omap_collect. }
  exists w1. split_and!; [|done|].
  - rewrite (garbageCollectDetachedNodes_run _ v ks w) by done.
    by apply collect_loop.
  - intros nodes w2. rewrite Hget. intros [= <- <-] node Hin.
    apply list_elem_of_In, filter_In in Hin as [_ Hatt].
    subst w1 m1. by rewrite collect_attached_stable.
Qed.

(** *** Transactions that dirty no node *)

Lemma leaveScope_enterScope viewModel readOnly w :
  leaveScope w (enterScope viewModel readOnly w) = w.
Proof. by destruct w. Qed.

Lemma with_selection_same (v : ViewModel) : with_selection (selection v) v = v.
Proof. by destruct v. Qed.

Lemma set_viewModels_id viewModel v w :
  viewModels w !! viewModel = Some v ->
  set_viewModels (<[viewModel := v]> (viewModels w)) w = w.
Proof.
  intros H. destruct w. unfold set_viewModels. simpl in *. f_equal.
  by apply insert_id.
Qed.

Lemma setSelection_run sel viewModel v w :
  activeViewModel w = Some viewModel ->
  viewModels w !! viewModel = Some v ->
  setSelection view sel w
  = Returned tt
      (set_viewModels (<[viewModel := with_selection (Some sel) v]> (viewModels w)) w).
Proof.
  intros Ha Hv. simpl.
  erewrite bind_returned by (by rewrite getActiveViewModel_run, Ha).
  unfold assignViewModel. by step_deref.
Qed.

(** A callback whose whole effect is to replace the selection of the
    active snapshot by [g] of the selection it finds. *)
Lemma draft_fork_without_dirty_nodes
    (g : option Selection -> option Selection)
    (callbackFn : ViewType -> M unit) currentViewModel editor c m e ce w :
  (forall a w' v', activeViewModel w' = Some a -> viewModels w' !! a = Some v' ->
     callbackFn view w'
     = Returned tt
         (set_viewModels
            (<[a := with_selection (g (selection v')) v']> (viewModels w')) w')) ->
  activeViewModel w = None ->
  viewModels w !! currentViewModel = Some c ->
  nodeMaps w !! nodeMap c = Some m ->
  editors w !! editor = Some e ->
  viewModels w !! _viewModel e = Some ce ->
  exists draft d wc w1,
    draftViewModel currentViewModel callbackFn editor w
    = Returned (if selectionDirty (selection d) (selection ce)
                then draft else currentViewModel) w1 /\
    selection d = g (createSelection draft editor wc) /\
    ForkFrame w c m draft d w1.
Proof.
  intros Hcb Ha Hc Hm He Hce.
  pose proof (cloneViewModel_run _ c m w Hc Hm) as Hclone. simpl in Hclone.
  set (empty := fresh (dom (nodeMaps w))) in *.
  set (copy := fresh (dom (<[empty := ∅]> (nodeMaps w)))) in *.
  set (dn := fresh (dom (keySets w))) in *.
  set (ds := fresh (dom (<[dn := []]> (keySets w)))) in *.
  set (draft := fresh (dom (viewModels w))) in *.
  set (d0 := mkViewModel (root c) copy None dn ds false) in *.
  match type of Hclone with _ = Returned _ ?x => set (wc := x) in * end.
  pose proof (fresh_lookup (viewModels w)) as Fdraft. fold draft in Fdraft.
  pose proof (fresh_lookup (nodeMaps w)) as Fempty. fold empty in Fempty.
  pose proof (fresh_lookup (<[empty := ∅]> (nodeMaps w))) as Fcopy. fold copy in Fcopy.
  pose proof (fresh_lookup (keySets w)) as Fdn. fold dn in Fdn.
  pose proof (fresh_lookup (<[dn := []]> (keySets w))) as Fds. fold ds in Fds.
  assert (copy ≠ empty) as Hce' by (intros E; by rewrite E, lookup_insert_eq in Fcopy).
  assert (ds ≠ dn) as Hdd by (intros E; by rewrite E, lookup_insert_eq in Fds).
  rewrite lookup_insert_ne in Fcopy by done.
  rewrite lookup_insert_ne in Fds by done.
  set (sel0 := createSelection draft editor wc).
  set (w0 := set_viewModels (<[draft := with_selection sel0 d0]> (viewModels wc)) wc).
  assert (draftBegin currentViewModel editor w = Returned draft w0) as Hbegin.
  { unfold draftBegin.
    unfold mbind at 1, M_bind at 1, gets at 1. rewrite Ha.
    rewrite bool_decide_false by (by intros []).
    erewrite bind_returned by done.
    unfold mbind at 1, M_bind at 1, gets at 1.
    erewrite bind_returned; [done|]. unfold assignViewModel.
    erewrite bind_returned; [done|]. apply deref_some.
    subst wc. simpl. by rewrite lookup_insert_eq. }
  set (d := with_selection (g sel0) d0).
  set (w1 := set_viewModels (<[draft := d]> (viewModels (enterScope draft false w0)))
               (enterScope draft false w0)).
  assert (callbackFn view (enterScope draft false w0) = Returned tt w1) as Hrun.
  { rewrite (Hcb draft _ (with_selection sel0 d0)); [done|done|].
    subst w0. simpl. by rewrite lookup_insert_eq. }
  assert (viewModels w1 !! draft = Some d) as Hd.
  { subst w1. simpl. by rewrite lookup_insert_eq. }
  assert (keySets w1 !! dn = Some []) as Hdn.
  { subst w1 w0 wc. simpl. rewrite lookup_insert_ne by done.
    by rewrite lookup_insert_eq. }
  assert (draft ≠ _viewModel e) as Hne by (intros E; rewrite E in Fdraft; congruence).
  exists draft, d, wc, (leaveScope w0 w1). split_and!.
  - rewrite draftViewModel_phases.
    erewrite bind_returned by done.
    erewrite bind_returned; cycle 1.
    { rewrite scope_run. unfold draftScope.
      erewrite bind_returned by done.
      erewrite bind_returned by (by apply (hasDirtyNodes_run _ d [])).
      done. }
    apply (draftAccept_clean _ _ _ d e ce); try done.
    subst w1 w0 wc. simpl. by rewrite !lookup_insert_ne.
  - done.
  - unfold ForkFrame. subst w1 w0 wc d d0. simpl.
    rewrite !insert_insert_eq, !lookup_insert_eq.
    split_and!; try done.
    + intros r [x Hr].
      rewrite !lookup_insert_ne; [done| |]; intros E; subst r; congruence.
    + intros r [x Hr].
      rewrite !lookup_insert_ne; [done| |]; intros E; subst r; congruence.
Qed.

(** X5.  A transaction whose callback does nothing, started with no
    scope active: it returns, the result is [currentViewModel] unless
    the selection created for the fork is dirty relative to that of
    the editor's current snapshot, in which case it is the fork; the
    fork is the only new object that matters, everything that existed
    before is untouched, and no transform has run. *)
Theorem idle_transaction currentViewModel editor c m e ce w :
  activeViewModel w = None ->
  viewModels w !! currentViewModel = Some c ->
  nodeMaps w !! nodeMap c = Some m ->
  editors w !! editor = Some e ->
  viewModels w !! _viewModel e = Some ce ->
  exists draft d wc w1,
    draftViewModel currentViewModel (fun _ => mret tt) editor w
    = Returned (if selectionDirty (selection d) (selection ce)
                then draft else currentViewModel) w1 /\
    selection d = createSelection draft editor wc /\
    ForkFrame w c m draft d w1.
Proof.
  intros Ha Hc Hm He Hce.
  apply (draft_fork_without_dirty_nodes (fun s => s) (fun _ => mret tt)
           currentViewModel editor c m e ce w); try done.
  intros a w' v' _ Hv'. rewrite with_selection_same.
  by rewrite set_viewModels_id.
Qed.

(** X6.  A transaction whose callback only calls [view.setSelection],
    started with no scope active: the fork ends with that selection,
    no dirty node and the node map of its predecessor, whatever
    transforms are registered none has run, and the fork is returned
    exactly when the selection is dirty relative to that of the
    editor's current snapshot -- always, if the selection set reports
    [isDirty]. *)
Theorem selection_only_transaction sel currentViewModel editor c m e ce w :
  activeViewModel w = None ->
  viewModels w !! currentViewModel = Some c ->
  nodeMaps w !! nodeMap c = Some m ->
  editors w !! editor = Some e ->
  viewModels w !! _viewModel e = Some ce ->
  exists draft d w1,
    draftViewModel currentViewModel (fun v => setSelection v sel) editor w
    = Returned (if selectionDirty (Some sel) (selection ce)
                then draft else currentViewModel) w1 /\
    selection d = Some sel /\
    ForkFrame w c m draft d w1 /\
    (isDirty sel = true -> selectionDirty (Some sel) (selection ce) = true).
Proof.
  intros Ha Hc Hm He Hce.
  destruct (draft_fork_without_dirty_nodes (fun _ => Some sel)
              (fun v => setSelection v sel) currentViewModel editor c m e ce w)
    as (draft & d & wc & w1 & Hrun & Hsel & Hframe); try done.
  { intros a w' v' Ha' Hv'. by apply setSelection_run. }
  exists draft, d, w1. rewrite Hsel in Hrun. split_and!; try done.
  intros Hdirty. simpl. by destruct (selection ce).
Qed.

(** *** Transactions started inside a scope *)

(** X7.  Inside a read scope the check of a mutation helper throws.
    A [draftViewModel] called from the read callback, whatever its
    callback and whatever the snapshot holds, does not fork: its
    callback starts with the very snapshot being read as the active
    one, its selection replaced, and with the read-only flag cleared.
    In that state the check returns, so a helper goes on to its
    mutation.  When the nested call returns, the snapshot being read is
    active and the flag is set again. *)
Theorem draft_inside_read_scope_is_writable
    viewModel currentViewModel (callbackFn : ViewType -> M unit) editor v w :
  viewModels w !! viewModel = Some v ->
  let reading := enterScope viewModel true w in
  let s0 :=
    enterScope viewModel false
      (set_viewModels
         (<[viewModel := with_selection (createSelection viewModel editor reading) v]>
            (viewModels reading)) reading) in
  readViewModel viewModel (fun _ => shouldErrorOnReadOnly) editor w
    = Threw ReadOnlyViolation reading /\
  draftViewModel currentViewModel callbackFn editor reading =
    match draftScope callbackFn viewModel editor view s0 with
    | Returned _ w1 =>
        draftAccept currentViewModel viewModel editor (leaveScope reading w1)
    | Threw e w1 => Threw e w1
    end /\
  dom (viewModels s0) = dom (viewModels w) /\
  getActiveViewModel s0 = Returned viewModel s0 /\
  shouldErrorOnReadOnly s0 = Returned tt s0 /\
  (forall mutation : M unit, (shouldErrorOnReadOnly;; mutation) s0 = mutation s0) /\
  (forall r w2,
     draftViewModel currentViewModel callbackFn editor reading = Returned r w2 ->
     activeViewModel w2 = Some viewModel /\ activeReadyOnlyMode w2 = true).
Proof.
  intros Hv reading s0.
  assert (shouldErrorOnReadOnly s0 = Returned tt s0) as Hcheck
    by (by rewrite shouldErrorOnReadOnly_run).
  split_and!.
  - unfold readViewModel. rewrite scope_run.
    by rewrite shouldErrorOnReadOnly_run.
  - by apply draftViewModel_nested_run.
  - subst s0 reading. simpl. apply dom_insert_lookup_L. eauto.
  - by rewrite getActiveViewModel_run.
  - done.
  - intros mutation. by erewrite bind_returned by done.
  - intros r w2 Hrun. by apply draftViewModel_inv in Hrun.
Qed.

(** X8.  A nested [draftViewModel], whatever its callback, starts by
    giving the snapshot in flight a freshly created selection.  When
    the enclosing callback has just set a selection with
    [view.setSelection], the nested callback starts on a snapshot whose
    selection is what [createSelection] answers, not the one set. *)
Theorem nested_draft_replaces_selection
    sel currentViewModel (callbackFn : ViewType -> M unit) editor a v w :
  activeViewModel w = Some a ->
  viewModels w !! a = Some v ->
  let w1 :=
    set_viewModels (<[a := with_selection (Some sel) v]> (viewModels w)) w in
  let s0 :=
    enterScope a false
      (set_viewModels
         (<[a := with_selection (createSelection a editor w1) v]> (viewModels w)) w) in
  setSelection view sel w = Returned tt w1 /\
  viewModels w1 !! a = Some (with_selection (Some sel) v) /\
  viewModels s0 !! a = Some (with_selection (createSelection a editor w1) v) /\
  (setSelection view sel;;
   draftViewModel currentViewModel callbackFn editor) w =
    match draftScope callbackFn a editor view s0 with
    | Returned _ w2 => draftAccept currentViewModel a editor (leaveScope w w2)
    | Threw e w2 => Threw e w2
    end.
Proof.
  intros Ha Hv w1 s0.
  assert (setSelection view sel w = Returned tt w1) as Hset
    by (by apply setSelection_run).
  split_and!.
  - done.
  - subst w1. simpl. by rewrite lookup_insert_eq.
  - subst s0. simpl. by rewrite lookup_insert_eq.
  - erewrite bind_returned by exact Hset.
    rewrite (draftViewModel_nested_run _ _ _ a (with_selection (Some sel) v));
      [|done|subst w1; simpl; by rewrite lookup_insert_eq].
    subst s0 w1. unfold set_viewModels at 1 2. simpl.
    by rewrite insert_insert_eq.
Qed.

(** *** Errors inside a transaction *)

Lemma draftBegin_idle_returns currentViewModel editor c m w :
  activeViewModel w = None ->
  viewModels w !! currentViewModel = Some c ->
  nodeMaps w !! nodeMap c = Some m ->
  exists draft w0, draftBegin currentViewModel editor w = Returned draft w0.
Proof.
  intros Ha Hc Hm.
  pose proof (cloneViewModel_run _ c m w Hc Hm) as Hclone. simpl in Hclone.
  eexists _, _. unfold draftBegin.
  unfold mbind at 1, M_bind at 1, gets at 1. rewrite Ha.
  rewrite bool_decide_false by (by intros []).
  erewrite bind_returned by exact Hclone.
  unfold mbind at 1, M_bind at 1, gets at 1.
  erewrite bind_returned; [done|]. unfold assignViewModel.
  erewrite bind_returned; [done|]. apply deref_some.
  simpl. by rewrite lookup_insert_eq.
Qed.

(** X9.  Errors inside [draftViewModel] are not handled.  If the
    callback throws, the call throws the same error in the state the
    callback left: no pass runs, the scope is not closed, nothing is
    returned.  If the callback returns with dirty nodes and the
    transform pipeline throws, the call throws in the state the
    pipeline left: the collector does not run. *)
Theorem draft_error_paths currentViewModel callbackFn editor w viewModel w0 :
  draftBegin currentViewModel editor w = Returned viewModel w0 ->
  (forall e w1,
     callbackFn view (enterScope viewModel false w0) = Threw e w1 ->
     draftViewModel currentViewModel callbackFn editor w = Threw e w1) /\
  (forall w1 e w2,
     callbackFn view (enterScope viewModel false w0) = Returned tt w1 ->
     hasDirtyNodes viewModel w1 = Returned true w1 ->
     applyTextTransforms viewModel editor w1 = Threw e w2 ->
     draftViewModel currentViewModel callbackFn editor w = Threw e w2).
Proof.
  intros Hbegin. split.
  - intros e w1 Hcb. rewrite draftViewModel_phases.
    erewrite bind_returned by done.
    apply bind_threw. rewrite scope_run. unfold draftScope.
    by erewrite bind_threw by done.
  - intros w1 e w2 Hcb Hdirty Happly. rewrite draftViewModel_phases.
    erewrite bind_returned by done.
    apply bind_threw. rewrite scope_run. unfold draftScope.
    erewrite bind_returned by done.
    erewrite bind_returned by done.
    cbv iota. by erewrite bind_threw by done.
Qed.

(** X10.  A transaction started with no scope active whose callback
    throws at once leaves its abandoned fork as the active snapshot,
    writable.  From then on [getActiveViewModel] returns that fork
    although no callback is running, and the next [draftViewModel],
    whatever snapshot it is given, takes the fork as its snapshot
    instead of forking: no snapshot object is created. *)
Theorem failed_draft_leaves_fork_active
    (callbackFn : ViewType -> M unit) thrown currentViewModel editor c m w :
  (forall w', callbackFn view w' = Threw thrown w') ->
  activeViewModel w = None ->
  viewModels w !! currentViewModel = Some c ->
  nodeMaps w !! nodeMap c = Some m ->
  exists draft w1,
    draftViewModel currentViewModel callbackFn editor w = Threw thrown w1 /\
    viewModels w !! draft = None /\
    activeViewModel w1 = Some draft /\
    activeReadyOnlyMode w1 = false /\
    getActiveViewModel w1 = Returned draft w1 /\
    (forall other editor', exists w2,
       draftBegin other editor' w1 = Returned draft w2 /\
       dom (viewModels w2) = dom (viewModels w1)).
Proof.
  intros Hcb Ha Hc Hm.
  destruct (draftBegin_idle_returns currentViewModel editor c m w Ha Hc Hm)
    as (draft & w0 & Hbegin).
  pose proof (draftBegin_inv _ _ _ _ _ Hbegin) as (_ & _ & [d Hd] & Hfresh).
  rewrite Ha in Hfresh. destruct Hfresh as [Hfresh _].
  exists draft, (enterScope draft false w0). split_and!; try done.
  - rewrite draftViewModel_phases.
    erewrite bind_returned by done.
    apply bind_threw. rewrite scope_run. unfold draftScope.
    by erewrite bind_threw by apply Hcb.
  - intros other editor'. eexists. split.
    + by apply (draftBegin_nested_run other editor' draft d).
    + simpl. apply dom_insert_lookup_L. eauto.
Qed.

(** *** Errors inside a commit *)

Lemma forEach_stops_at_throw {A} (before after : list A) (x : A)
    (f : A -> M unit) w w1 e w2 :
  forEach before f w = Returned tt w1 ->
  f x w1 = Threw e w2 ->
  forEach (before ++ x :: after) f w = Threw e w2.
Proof.
  revert w. induction before as [|y before IH]; intros w Hbefore Hx.
  { simpl in *. injection Hbefore as <-. by apply bind_threw. }
  simpl in *. unfold mbind, M_bind in Hbefore |- *.
  destruct (f y w) as [[] w'|]; [|done]. by apply IH.
Qed.

(** X11.  Errors inside [updateViewModel] are not handled.  If the
    reconciler throws, the call throws in the state the reconciler
    left: the ambient snapshot is not put back, the editor's slot is
    not written and no listener is called.  If the reconciler returns
    and a listener throws, the call throws in the state that listener
    left: the listeners registered after it are not called, and the
    commit is not undone. *)
Theorem commit_error_paths viewModel editor w :
  (forall e w1,
     reconcileViewModel viewModel editor (set_activeViewModel (Some viewModel) w)
       = Threw e w1 ->
     updateViewModel viewModel editor w = Threw e w1) /\
  (forall w1 ed before f after w3 e w4,
     reconcileViewModel viewModel editor (set_activeViewModel (Some viewModel) w)
       = Returned tt w1 ->
     editors w1 !! editor = Some ed ->
     _updateListeners ed = before ++ f :: after ->
     forEach before (fun g => updateListener g viewModel)
       (set_editors (<[editor := with_viewModel viewModel ed]> (editors w1))
          (set_activeViewModel (activeViewModel w) w1))
       = Returned tt w3 ->
     updateListener f viewModel w3 = Threw e w4 ->
     updateViewModel viewModel editor w = Threw e w4).
Proof.
  split.
  - intros e w1 Hrec. unfold updateViewModel.
    unfold mbind at 1, M_bind at 1, gets at 1.
    unfold mbind at 1, M_bind at 1, modify at 1.
    by apply bind_threw.
  - intros w1 ed before f after w3 e w4 Hrec Hed Hlisteners Hbefore Hf.
    unfold updateViewModel.
    unfold mbind at 1, M_bind at 1, gets at 1.
    unfold mbind at 1, M_bind at 1, modify at 1.
    erewrite bind_returned by done.
    unfold mbind at 1, M_bind at 1, modify at 1.
    erewrite bind_returned; cycle 1.
    { unfold assignEditor. step_deref. done. }
    rewrite (triggerOnChange_run _ _ (with_viewModel viewModel ed))
      by (simpl; by rewrite lookup_insert_eq).
    simpl. rewrite Hlisteners.
    by apply (forEach_stops_at_throw before after f _ _ w3 e w4).
Qed.

(** *** Scopes inside scopes *)

(** X12.  Scopes stack.  When a scope is opened inside the callback of
    another and its callback returns, what follows in the outer
    callback runs with the outer snapshot active and the outer
    read-only flag, in the stores the inner callback left; when the
    outer callback returns in turn, the values from before the outer
    scope are back. *)
Theorem scopes_stack
    (inner rest : ViewType -> M unit) outerViewModel innerViewModel editor
    (outerReadOnly innerReadOnly : bool) w w2 :
  inner view
    (enterScope innerViewModel innerReadOnly
       (enterScope outerViewModel outerReadOnly w)) = Returned tt w2 ->
  exists w3,
    activeViewModel w3 = Some outerViewModel /\
    activeReadyOnlyMode w3 = outerReadOnly /\
    sameStores w3 w2 /\
    callCallbackWithViewModelScope
      (fun v =>
         callCallbackWithViewModelScope inner innerViewModel editor innerReadOnly;;
         rest v)
      outerViewModel editor outerReadOnly w
    = match rest view w3 with
      | Returned _ w4 => Returned tt (leaveScope w w4)
      | Threw e w4 => Threw e w4
      end.
Proof.
  intros Hinner.
  exists (leaveScope (enterScope outerViewModel outerReadOnly w) w2).
  split_and!; try done.
  rewrite scope_run.
  erewrite bind_returned; [done|].
  by rewrite scope_run, Hinner.
Qed.

End Further.

(** ** The image node *)

Section ImageNodeProperties.

Context {JsNumber Base DecoratorMap : Type}.
Context (truthy : JsNumber -> bool).
Context (DecoratorNode : option DecoratorMap -> option NodeKey -> Base).
Context (base_state : Base -> DecoratorMap) (base_key : Base -> NodeKey).

(** X13.  [ImageNode.clone] copies [__src], [__altText], [__maxWidth]
    and [__caption].  It copies [__width] and [__height] only when they
    are ['inherit'] or a truthy number: a falsy number (0, NaN) comes
    out as ['inherit'].  So a clone never holds a falsy width or
    height, and cloning a clone changes none of these six fields. *)
Theorem cloneImageNode_fields (node : @ImageNode JsNumber Base) :
  let clone := cloneImageNode truthy DecoratorNode base_state base_key in
  __src (clone node) = __src node /\
  __altText (clone node) = __altText node /\
  __maxWidth (clone node) = __maxWidth node /\
  __caption (clone node) = __caption node /\
  __width (clone node)
    = (if keptDimension truthy (__width node) then __width node else Inherit) /\
  __height (clone node)
    = (if keptDimension truthy (__height node) then __height node else Inherit) /\
  keptDimension truthy (__width (clone node)) = true /\
  keptDimension truthy (__height (clone node)) = true /\
  __width (clone (clone node)) = __width (clone node) /\
  __height (clone (clone node)) = __height (clone node).
Proof.
  destruct node as [b src alt maxw [|nw] [|nh] cap]; destruct cap; simpl;
    try destruct (truthy nw) eqn:Ew; try destruct (truthy nh) eqn:Eh;
    simpl; rewrite ?Ew, ?Eh; repeat split.
Qed.

End ImageNodeProperties.

(** ** The further properties at work on the concrete host *)

Lemma getDirtyNodes_resolves_witness :
  viewModels idleWorld !! 1 = Some (mkViewModel 0 1 None 2 3 false) /\
  keySets idleWorld !! 2 = Some ["a"; "b"; "root"; "gone"] /\
  nodeMaps idleWorld !! 1 = Some documentNodes /\
  getDirtyNodes 1 idleWorld = Returned [1; 2; 0] idleWorld.
Proof.
  do 3 (split; [reflexivity|]).
  exact (proj1 (getDirtyNodes_resolves 1 (mkViewModel 0 1 None 2 3 false)
                  ["a"; "b"; "root"; "gone"] documentNodes idleWorld
                  eq_refl eq_refl eq_refl)).
Defined.

Lemma getDirtyNodes_after_collector_witness :
  CollectionStable (host := loggingHost) /\
  exists w1,
    garbageCollectDetachedNodes 1 idleWorld = Returned tt w1 /\
    getDirtyNodes 1 w1 = Returned [1; 0] w1.
Proof.
  split; [exact loggingHost_stable|].
  destruct (getDirtyNodes_after_collector 1 (mkViewModel 0 1 None 2 3 false)
              ["a"; "b"; "root"; "gone"] documentNodes idleWorld
              loggingHost_stable eq_refl eq_refl eq_refl)
    as (w1 & Hrun & Hget & _).
  exists w1. split; [exact Hrun|exact Hget].
Defined.

Lemma collector_only_shrinks_own_map_witness :
  viewModels idleWorld !! 1 = Some (mkViewModel 0 1 None 2 3 false) /\
  exists m' w1,
    garbageCollectDetachedNodes 1 idleWorld = Returned tt w1 /\
    nodeMaps w1 !! 1 = Some m' /\ m' ⊆ documentNodes /\
    nodeMaps w1 !! 0 = Some documentNodes /\
    keySets w1 = keySets idleWorld.
Proof.
  split; [reflexivity|].
  destruct (collector_only_shrinks_own_map 1 (mkViewModel 0 1 None 2 3 false)
              ["a"; "b"; "root"; "gone"] documentNodes idleWorld
              eq_refl eq_refl eq_refl)
    as (m' & w1 & Hrun & Hmap & Hsub & _ & Hothers & _ & Hsets & _).
  exists m', w1. repeat split; try assumption.
  rewrite (Hothers 0); [reflexivity|discriminate].
Defined.

Lemma collector_idempotent_witness :
  CollectionStable (host := loggingHost) /\
  (garbageCollectDetachedNodes 1;; garbageCollectDetachedNodes 1) idleWorld
  = garbageCollectDetachedNodes 1 idleWorld.
Proof.
  split; [exact loggingHost_stable|].
  exact (collector_idempotent 1 (mkViewModel 0 1 None 2 3 false)
           ["a"; "b"; "root"; "gone"] documentNodes idleWorld
           loggingHost_stable eq_refl eq_refl eq_refl).
Defined.

Lemma idle_transaction_witness :
  activeViewModel idleWorld = None /\
  exists w1, draftViewModel 0 idleCallback 0 idleWorld = Returned 0 w1 /\
             ext w1 = ext idleWorld /\ activeViewModel w1 = None.
Proof.
  split; [reflexivity|].
  destruct (idle_transaction 0 0
              (mkViewModel 0 0 (Some (mkSelection false 7)) 0 1 false)
              documentNodes (mkEditor 0 [10; 11] [20; 21])
              (mkViewModel 0 0 (Some (mkSelection false 7)) 0 1 false)
              idleWorld eq_refl eq_refl eq_refl eq_refl eq_refl)
    as (draft & d & wc & w1 & Hrun & Hsel & Hframe).
  destruct Hframe as (_ & _ & _ & _ & _ & _ & _ & _ & _ & _ & Hext & Ha & _).
  exists w1. rewrite Hsel in Hrun. split; [exact Hrun|]. split; assumption.
Defined.

Lemma selection_only_transaction_witness :
  activeViewModel idleWorld = None /\
  exists draft d w1,
    draftViewModel 0 (fun v => setSelection v (mkSelection true 9)) 0 idleWorld
      = Returned draft w1 /\
    viewModels idleWorld !! draft = None /\
    viewModels w1 !! draft = Some d /\
    selection d = Some (mkSelection true 9) /\
    ext w1 = ext idleWorld.
Proof.
  split; [reflexivity|].
  destruct (selection_only_transaction (mkSelection true 9) 0 0
              (mkViewModel 0 0 (Some (mkSelection false 7)) 0 1 false)
              documentNodes (mkEditor 0 [10; 11] [20; 21])
              (mkViewModel 0 0 (Some (mkSelection false 7)) 0 1 false)
              idleWorld eq_refl eq_refl eq_refl eq_refl eq_refl)
    as (draft & d & w1 & Hrun & Hsel & Hframe & _).
  destruct Hframe as (Hfresh & Hvms & _ & _ & _ & _ & _ & _ & _ & _ & Hext & _).
  exists draft, d, w1. rewrite Hvms, lookup_insert_eq. repeat split; assumption.
Defined.

Lemma draft_inside_read_scope_is_writable_witness :
  viewModels idleWorld !! 0
    = Some (mkViewModel 0 0 (Some (mkSelection false 7)) 0 1 false) /\
  readViewModel 0 assertingCallback 0 idleWorld
    = Threw ReadOnlyViolation (enterScope 0 true idleWorld) /\
  (shouldErrorOnReadOnly;; markNodeAsDirty "a") (enterScope 0 false idleWorld)
    = markNodeAsDirty "a" (enterScope 0 false idleWorld) /\
  readViewModel 0 nestedEditCallback 0 idleWorld
    = Returned tt (world_of (readViewModel 0 nestedEditCallback 0 idleWorld)).
Proof.
  split; [reflexivity|].
  destruct (draft_inside_read_scope_is_writable 0 1 editingCallback 0
              (mkViewModel 0 0 (Some (mkSelection false 7)) 0 1 false)
              idleWorld eq_refl)
    as (Hthrow & _ & _ & _ & _ & Hgoes & _).
  split; [exact Hthrow|]. split; [|vm_compute; reflexivity].
  exact (Hgoes (markNodeAsDirty "a")).
Defined.

Lemma nested_draft_replaces_selection_witness :
  activeViewModel openWorld = Some 0 /\
  viewModels openWorld !! 0
    = Some (mkViewModel 0 0 (Some (mkSelection false 7)) 0 1 false) /\
  setSelection view (mkSelection true 9) openWorld
    = Returned tt
        (set_viewModels
           (<[0 := mkViewModel 0 0 (Some (mkSelection true 9)) 0 1 false]>
              (viewModels openWorld)) openWorld) /\
  selection <$>
    viewModels
      (world_of ((setSelection view (mkSelection true 9);;
                  draftViewModel 1 idleCallback 0) openWorld)) !! 0
  = Some (Some (mkSelection false 7)).
Proof.
  do 2 (split; [reflexivity|]).
  destruct (nested_draft_replaces_selection (mkSelection true 9) 1 idleCallback 0 0
              (mkViewModel 0 0 (Some (mkSelection false 7)) 0 1 false)
              openWorld eq_refl eq_refl)
    as (Hset & _).
  split; [exact Hset|vm_compute; reflexivity].
Defined.

Lemma draft_error_paths_witness :
  draftBegin 0 0 idleWorld = Returned 2 forkedWorld /\
  draftViewModel 0 throwingCallback 0 idleWorld
    = Threw (JsOther 0) (enterScope 2 false forkedWorld).
Proof.
  assert (draftBegin 0 0 idleWorld = Returned 2 forkedWorld) as H1
    by (vm_compute; reflexivity).
  split; [exact H1|].
  apply (proj1 (draft_error_paths 0 throwingCallback 0 idleWorld 2 forkedWorld H1)).
  reflexivity.
Defined.

Lemma failed_draft_leaves_fork_active_witness :
  (forall w', throwingCallback view w' = Threw (JsOther 0) w') /\
  exists draft w1,
    draftViewModel 0 throwingCallback 0 idleWorld = Threw (JsOther 0) w1 /\
    getActiveViewModel w1 = Returned draft w1 /\
    exists w2, draftBegin 1 0 w1 = Returned draft w2.
Proof.
  split; [intros w'; reflexivity|].
  destruct (failed_draft_leaves_fork_active throwingCallback (JsOther 0) 0 0
              (mkViewModel 0 0 (Some (mkSelection false 7)) 0 1 false)
              documentNodes idleWorld (fun w' => eq_refl) eq_refl eq_refl eq_refl)
    as (draft & w1 & Hrun & _ & _ & _ & Hget & Hnext).
  destruct (Hnext 1 0) as (w2 & Hbegin & _).
  exists draft, w1. split; [exact Hrun|]. split; [exact Hget|].
  exists w2. exact Hbegin.
Defined.

Lemma commit_error_paths_witness :
  updateViewModel (host := failingHost) 1 1 idleWorld
    = Threw (JsOther 1) (set_activeViewModel (Some 1) idleWorld) /\
  (exists w4,
     updateViewModel (host := failingHost) 1 0 idleWorld = Threw (JsOther 2) w4 /\
     calls (ext w4) = [(20, 1)] /\
     _viewModel <$> editors w4 !! 0 = Some 1).
Proof.
  destruct (commit_error_paths (host := failingHost) 1 1 idleWorld) as [Hrec _].
  destruct (commit_error_paths (host := failingHost) 1 0 idleWorld) as [_ Hlistener].
  split.
  - apply Hrec. reflexivity.
  - eexists. split.
    + eapply (Hlistener (set_activeViewModel (Some 1) idleWorld)
                (mkEditor 0 [10; 11] [20; 21]) [20] 21 []);
        [reflexivity | reflexivity | reflexivity
        | vm_compute; reflexivity | vm_compute; reflexivity].
    + split; vm_compute; reflexivity.
Defined.

Lemma scopes_stack_witness :
  idleCallback view (enterScope 1 true (enterScope 0 false idleWorld))
    = Returned tt (enterScope 1 true (enterScope 0 false idleWorld)) /\
  exists w4,
    callCallbackWithViewModelScope
      (fun v => callCallbackWithViewModelScope idleCallback 1 0 true;;
                assertingCallback v)
      0 0 false idleWorld
    = Returned tt w4 /\
    activeViewModel w4 = None /\ activeReadyOnlyMode w4 = false.
Proof.
  split; [reflexivity|].
  destruct (scopes_stack idleCallback assertingCallback 0 1 0 false true idleWorld
              (enterScope 1 true (enterScope 0 false idleWorld)) eq_refl)
    as (w3 & _ & Hro & _ & Hrun).
  rewrite Hrun. unfold assertingCallback.
  rewrite shouldErrorOnReadOnly_run, Hro.
  eexists. repeat split.
Defined.

(** A node whose width is the number 0, with numbers read as integers:
    its clone has width ['inherit']. *)
Example clone_drops_zero_width :
  __width
    (cloneImageNode (fun n : Z => negb (n =? 0)%Z)
       (fun (_ : option unit) (_ : option string) => tt)
       (fun _ => tt) (fun _ => "k")
       (mkImageNode tt "cat.png" "a cat" 500%Z (Pixels 0%Z) (Pixels 120%Z) true))
  = Inherit.
Proof. reflexivity. Qed.
